(** * Salus Bridge: the REST dispatcher of [app/main.py]

    A shallow embedding of the FastAPI module that bridges HTTP requests to
    the Salus iT600 gateway client, and the properties of its request
    validation and zone fan-out.

    - Pydantic models are records, one module per model so that the fields
      keep their Python names.  The gateway hands out device records whose
      attributes have the types [DeviceResponse] declares, and on those
      [device_to_response] is the record constructor.  What the validating
      constructor does with attributes of any type is [DeviceResponse_init]
      and [Dynamic.device_to_response].
    - A handler is a tree of gateway calls ([Coro]): every call on the global
      [gateway] object is a node, [raise HTTPException(...)] and [return] are
      leaves.  The text of a handler follows its Python body line by line.
    - The gateway client (pyit600) is an external collaborator.  It is an
      interface ([Gateway]): any type of states with one transformer per
      method.  [run] executes a handler against a gateway state and records
      the calls made, in order, with the answers of the lookups.
    - A gateway call is taken to return.  A call that raises (a connectivity
      failure) ends the request with an unclassified server error and is not
      part of this model. *)

From Stdlib Require Import String List Bool Floats ZArith Arith Lia.
Import ListNotations.
Local Open Scope list_scope.
Local Open Scope string_scope.

(** ** Python values *)

(** Truthiness of a [str | None], as tested by [not x]. *)
Definition truthy (x : option string) : bool :=
  match x with
  | None => false
  | Some s => negb (s =? "")
  end.

(** [x in l] for a list of strings: some element compares equal. *)
Definition py_in (x : string) (l : list string) : bool :=
  existsb (String.eqb x) l.

(** [repr] of a string with no quote, backslash or control character, and
    of a list of such strings, as an f-string prints them. *)
Definition repr_str (s : string) : string := "'" ++ s ++ "'".

Definition repr_list (l : list string) : string :=
  "[" ++ String.concat ", " (map repr_str l) ++ "]".

(** [needle in haystack] for strings. *)
Fixpoint contains (needle haystack : string) : bool :=
  String.prefix needle haystack ||
  match haystack with
  | EmptyString => false
  | String _ rest => contains needle rest
  end.

Set Warnings "-register-all".

(** A JSON body built from a dict literal; a dict keeps its keys in the
    order they are written. *)
Inductive JSON : Type :=
| JString (s : string)
| JNumber (x : float)
| JArray (items : list JSON)
| JObject (members : list (string * JSON)).

(** ** Models *)

(** The attributes of a pyit600 climate device that this module reads,
    with the types [DeviceResponse] declares for them. *)
Module ClimateDevice.
Record t : Type := {
  name : string;
  current_temperature : option float;
  target_temperature : option float;
  hvac_mode : option string;
  hvac_action : option string;
  preset_mode : option string;
  available : bool
}.
End ClimateDevice.

Module TemperatureRequest.
Record t : Type := { temperature : float }.
End TemperatureRequest.

Module ModeRequest.
Record t : Type := { mode : string }.
End ModeRequest.

Module PresetRequest.
Record t : Type := { preset : string }.
End PresetRequest.

Module DeviceResponse.
Record t : Type := {
  id : string;
  name : string;
  current_temperature : option float;
  target_temperature : option float;
  hvac_mode : option string;
  hvac_action : option string;
  preset_mode : option string;
  available : bool
}.
End DeviceResponse.

Module DeviceListResponse.
Record t : Type := {
  devices : list DeviceResponse.t;
  count : Z
}.
End DeviceListResponse.

Module ZoneTemperatureRequest.
Record t : Type := {
  device_ids : list string;
  temperature : float
}.
End ZoneTemperatureRequest.

Module ZonePresetRequest.
Record t : Type := {
  device_ids : list string;
  preset : string
}.
End ZonePresetRequest.

Module HTTPException.
Record t : Type := {
  status_code : Z;
  detail : string
}.
End HTTPException.

(** ** Configuration read at import time *)

Inductive ValueError : Type :=
| MkValueError (message : string).

Record Config : Type := {
  GATEWAY_HOST : string;
  GATEWAY_EUID : string
}.

Definition required_message : string :=
  "SALUS_GATEWAY_HOST and SALUS_GATEWAY_EUID environment variables are required".

(** Lines 10-16: the two [os.getenv] reads and the guard behind them.  A
    value that passes the guard is a string, so the last branch is never
    taken. *)
Definition load_config (getenv : string -> option string)
  : ValueError + Config :=
  let host := getenv "SALUS_GATEWAY_HOST" in
  let euid := getenv "SALUS_GATEWAY_EUID" in
  if negb (truthy host) || negb (truthy euid)
  then inl (MkValueError required_message)
  else
    match host, euid with
    | Some h, Some e => inr {| GATEWAY_HOST := h; GATEWAY_EUID := e |}
    | _, _ => inl (MkValueError required_message)
    end.

(** ** Handlers as trees of gateway calls *)

(** The methods of the gateway object this module calls, and [print]; the
    index is the type of what the call gives back. *)
Inductive Effect : Type -> Type :=
| Connect : Effect unit
| Close : Effect unit
| PollStatus : Effect unit
| GetClimateDevices : Effect (list (string * ClimateDevice.t))
| GetClimateDevice (device_id : string) : Effect (option ClimateDevice.t)
| SetClimateDeviceTemperature (device_id : string) (temperature : float)
    : Effect unit
| SetClimateDeviceMode (device_id mode : string) : Effect unit
| SetClimateDevicePreset (device_id preset : string) : Effect unit
| Print (line : string) : Effect unit.

Inductive Coro (A : Type) : Type :=
| Return (a : A)
| Raise (e : HTTPException.t)
| Await (X : Type) (call : Effect X) (k : X -> Coro A).

Arguments Return {A} a.
Arguments Raise {A} e.
Arguments Await {A X} call k.

Fixpoint bind {A B : Type} (c : Coro A) (f : A -> Coro B) : Coro B :=
  match c with
  | Return a => f a
  | Raise e => Raise e
  | Await call k => Await call (fun x => bind (k x) f)
  end.

Definition call {X : Type} (e : Effect X) : Coro X := Await e Return.

Declare Scope coro_scope.
Delimit Scope coro_scope with coro.
Notation "x <- c ;; k" := (bind c (fun x => k))
  (at level 61, c at next level, right associativity) : coro_scope.
Notation "c ;; k" := (bind c (fun _ => k))
  (at level 61, right associativity) : coro_scope.
Local Open Scope coro_scope.

(** A [for] loop over a list whose body updates one local variable. *)
Fixpoint for_each {S : Type} (xs : list string)
    (body : string -> S -> Coro S) (s : S) : Coro S :=
  match xs with
  | [] => Return s
  | x :: rest => s' <- body x s ;; for_each rest body s'
  end.

Definition HTTP (status_code : Z) (detail : string) : HTTPException.t :=
  {| HTTPException.status_code := status_code;
     HTTPException.detail := detail |}.

(** Lines 73-83, on a device record whose attributes have the declared
    types; [Dynamic.device_to_response] is the same function on attributes
    of any type. *)
Definition device_to_response (device_id : string) (device : ClimateDevice.t)
  : DeviceResponse.t :=
  {| DeviceResponse.id := device_id;
     DeviceResponse.name := ClimateDevice.name device;
     DeviceResponse.current_temperature :=
       ClimateDevice.current_temperature device;
     DeviceResponse.target_temperature :=
       ClimateDevice.target_temperature device;
     DeviceResponse.hvac_mode := ClimateDevice.hvac_mode device;
     DeviceResponse.hvac_action := ClimateDevice.hvac_action device;
     DeviceResponse.preset_mode := ClimateDevice.preset_mode device;
     DeviceResponse.available := ClimateDevice.available device |}.

(** Lines 27-29 and 31: what [lifespan] awaits before the [yield] and after
    it.  Line 26, the construction of the gateway object from the
    configuration, is [gw_new] in [process_start] below. *)
Definition lifespan_startup (cfg : Config) : Coro unit :=
  call Connect ;;
  call PollStatus ;;
  call (Print ("Connected to Salus gateway at " ++ GATEWAY_HOST cfg)) ;;
  Return tt.

Definition lifespan_shutdown : Coro unit :=
  call Close.

(** Lines 87-89. *)
Definition root (cfg : Config) : Coro JSON :=
  Return (JObject [("status", JString "ok");
                   ("gateway", JString (GATEWAY_HOST cfg))]).

(** Lines 92-101. *)
Definition get_devices : Coro DeviceListResponse.t :=
  call PollStatus ;;
  devices <- call GetClimateDevices ;;
  Return {| DeviceListResponse.devices :=
              map (fun '(did, d) => device_to_response did d) devices;
            DeviceListResponse.count := Z.of_nat (length devices) |}.

(** Lines 104-113.  A device object is truthy, so [not device] holds for
    [None] only. *)
Definition get_device (device_id : string) : Coro DeviceResponse.t :=
  call PollStatus ;;
  device <- call (GetClimateDevice device_id) ;;
  match device with
  | None => Raise (HTTP 404 ("Device " ++ device_id ++ " not found"))
  | Some device => Return (device_to_response device_id device)
  end.

(** Lines 116-131. *)
Definition set_temperature (device_id : string)
    (request : TemperatureRequest.t) : Coro JSON :=
  call PollStatus ;;
  device <- call (GetClimateDevice device_id) ;;
  match device with
  | None => Raise (HTTP 404 ("Device " ++ device_id ++ " not found"))
  | Some _ =>
      call (SetClimateDeviceTemperature device_id
              (TemperatureRequest.temperature request)) ;;
      Return (JObject
        [("status", JString "ok");
         ("device_id", JString device_id);
         ("temperature", JNumber (TemperatureRequest.temperature request))])
  end.

(** Lines 134-156. *)
Definition set_mode (device_id : string) (request : ModeRequest.t)
  : Coro JSON :=
  call PollStatus ;;
  device <- call (GetClimateDevice device_id) ;;
  match device with
  | None => Raise (HTTP 404 ("Device " ++ device_id ++ " not found"))
  | Some _ =>
      let valid_modes := ["off"; "heat"; "auto"] in
      if negb (py_in (ModeRequest.mode request) valid_modes)
      then Raise (HTTP 400
        ("Invalid mode. Must be one of: " ++ repr_list valid_modes))
      else
        call (SetClimateDeviceMode device_id (ModeRequest.mode request)) ;;
        Return (JObject
          [("status", JString "ok");
           ("device_id", JString device_id);
           ("mode", JString (ModeRequest.mode request))])
  end.

(** Lines 159-181. *)
Definition set_preset (device_id : string) (request : PresetRequest.t)
  : Coro JSON :=
  call PollStatus ;;
  device <- call (GetClimateDevice device_id) ;;
  match device with
  | None => Raise (HTTP 404 ("Device " ++ device_id ++ " not found"))
  | Some _ =>
      let valid_presets := ["Follow Schedule"; "Permanent Hold"; "Off"] in
      if negb (py_in (PresetRequest.preset request) valid_presets)
      then Raise (HTTP 400
        ("Invalid preset. Must be one of: " ++ repr_list valid_presets))
      else
        call (SetClimateDevicePreset device_id
                (PresetRequest.preset request)) ;;
        Return (JObject
          [("status", JString "ok");
           ("device_id", JString device_id);
           ("preset", JString (PresetRequest.preset request))])
  end.

(** Lines 195-213. *)
Definition set_zone_temperature (request : ZoneTemperatureRequest.t)
  : Coro JSON :=
  call PollStatus ;;
  results <-
    for_each (ZoneTemperatureRequest.device_ids request)
      (fun device_id results =>
         device <- call (GetClimateDevice device_id) ;;
         match device with
         | Some _ =>
             call (SetClimateDeviceTemperature device_id
                     (ZoneTemperatureRequest.temperature request)) ;;
             Return (results ++ [JObject [("device_id", JString device_id);
                                          ("status", JString "ok")]])%list
         | None =>
             Return (results ++ [JObject [("device_id", JString device_id);
                                          ("status", JString "not_found")]])%list
         end)
      [] ;;
  Return (JObject
    [("status", JString "ok");
     ("temperature", JNumber (ZoneTemperatureRequest.temperature request));
     ("results", JArray results)]).

(** Lines 216-241. *)
Definition set_zone_preset (request : ZonePresetRequest.t) : Coro JSON :=
  call PollStatus ;;
  let valid_presets := ["Follow Schedule"; "Permanent Hold"; "Off"] in
  if negb (py_in (ZonePresetRequest.preset request) valid_presets)
  then Raise (HTTP 400
    ("Invalid preset. Must be one of: " ++ repr_list valid_presets))
  else
    results <-
      for_each (ZonePresetRequest.device_ids request)
        (fun device_id results =>
           device <- call (GetClimateDevice device_id) ;;
           match device with
           | Some _ =>
               call (SetClimateDevicePreset device_id
                       (ZonePresetRequest.preset request)) ;;
               Return (results ++ [JObject [("device_id", JString device_id);
                                            ("status", JString "ok")]])%list
           | None =>
               Return (results ++ [JObject [("device_id", JString device_id);
                                            ("status", JString "not_found")]])%list
           end)
        [] ;;
    Return (JObject
      [("status", JString "ok");
       ("preset", JString (ZonePresetRequest.preset request));
       ("results", JArray results)]).

(** ** The gateway client and the run of a handler *)

(** The surface of [IT600Gateway] used by this module.  [G] is whatever the
    client holds (connection, cached device states); every method is a
    transformer or a reader of it. *)
Class Gateway (G : Type) : Type := {
  gw_new : string -> string -> G;
  gw_connect : G -> G;
  gw_close : G -> G;
  gw_poll_status : G -> G;
  gw_get_climate_devices : G -> list (string * ClimateDevice.t);
  gw_get_climate_device : G -> string -> option ClimateDevice.t;
  gw_set_climate_device_temperature : G -> string -> float -> G;
  gw_set_climate_device_mode : G -> string -> string -> G;
  gw_set_climate_device_preset : G -> string -> string -> G
}.

(** One entry of the call log: the method, its arguments and, for the two
    lookups, what the gateway answered. *)
Inductive Event : Type :=
| EvConnect
| EvClose
| EvPollStatus
| EvGetClimateDevices (answer : list (string * ClimateDevice.t))
| EvGetClimateDevice (device_id : string) (answer : option ClimateDevice.t)
| EvSetTemperature (device_id : string) (temperature : float)
| EvSetMode (device_id mode : string)
| EvSetPreset (device_id preset : string)
| EvPrint (line : string).

(** The three mutating calls. *)
Definition is_setter (ev : Event) : bool :=
  match ev with
  | EvSetTemperature _ _ | EvSetMode _ _ | EvSetPreset _ _ => true
  | _ => false
  end.

Definition is_poll (ev : Event) : bool :=
  match ev with
  | EvPollStatus => true
  | _ => false
  end.

Definition observe {X : Type} (e : Effect X) : X -> Event :=
  match e in Effect X return X -> Event with
  | Connect => fun _ => EvConnect
  | Close => fun _ => EvClose
  | PollStatus => fun _ => EvPollStatus
  | GetClimateDevices => fun answer => EvGetClimateDevices answer
  | GetClimateDevice device_id => fun answer =>
      EvGetClimateDevice device_id answer
  | SetClimateDeviceTemperature device_id temperature => fun _ =>
      EvSetTemperature device_id temperature
  | SetClimateDeviceMode device_id mode => fun _ => EvSetMode device_id mode
  | SetClimateDevicePreset device_id preset => fun _ =>
      EvSetPreset device_id preset
  | Print line => fun _ => EvPrint line
  end.

Inductive Result (A : Type) : Type :=
| Returned (a : A)
| Raised (e : HTTPException.t).

Arguments Returned {A} a.
Arguments Raised {A} e.

Record Run (G A : Type) : Type := {
  outcome : Result A;
  gateway_after : G;
  trace : list Event
}.

Arguments outcome {G A} r.
Arguments gateway_after {G A} r.
Arguments trace {G A} r.

Section Running.
Context {G : Type} `{Gateway G}.

Definition perform {X : Type} (e : Effect X) (g : G) : X * G :=
  match e in Effect X return X * G with
  | Connect => (tt, gw_connect g)
  | Close => (tt, gw_close g)
  | PollStatus => (tt, gw_poll_status g)
  | GetClimateDevices => (gw_get_climate_devices g, g)
  | GetClimateDevice device_id => (gw_get_climate_device g device_id, g)
  | SetClimateDeviceTemperature device_id temperature =>
      (tt, gw_set_climate_device_temperature g device_id temperature)
  | SetClimateDeviceMode device_id mode =>
      (tt, gw_set_climate_device_mode g device_id mode)
  | SetClimateDevicePreset device_id preset =>
      (tt, gw_set_climate_device_preset g device_id preset)
  | Print _ => (tt, g)
  end.

Fixpoint run {A : Type} (c : Coro A) (g : G) : Run G A :=
  match c with
  | Return a => {| outcome := Returned a; gateway_after := g; trace := [] |}
  | Raise e => {| outcome := Raised e; gateway_after := g; trace := [] |}
  | Await call k =>
      let (x, g') := perform call g in
      let r := run (k x) g' in
      {| outcome := outcome r;
         gateway_after := gateway_after r;
         trace := observe call x :: trace r |}
  end.

(** What the process does when it is started with the environment
    [getenv]: the module is imported (the configuration guard runs), and
    only then the server enters [lifespan], which builds the gateway
    object, connects and polls.  [started_gateway] is the module's global
    [gateway], [None] until [lifespan] assigns it. *)
Record Startup : Type := {
  import_error : option ValueError;
  started_gateway : option G;
  startup_trace : list Event
}.

Definition process_start (getenv : string -> option string) : Startup :=
  match load_config getenv with
  | inl err =>
      {| import_error := Some err;
         started_gateway := None;
         startup_trace := [] |}
  | inr cfg =>
      let r := run (lifespan_startup cfg)
                   (gw_new (GATEWAY_HOST cfg) (GATEWAY_EUID cfg)) in
      {| import_error := None;
         started_gateway := Some (gateway_after r);
         startup_trace := trace r |}
  end.

End Running.

(** ** A gateway for examples *)

(** [devices[device_id]] on the items of a dict. *)
Fixpoint lookup (device_id : string) (items : list (string * ClimateDevice.t))
  : option ClimateDevice.t :=
  match items with
  | [] => None
  | (did, d) :: rest =>
      if did =? device_id then Some d else lookup device_id rest
  end.

(** A stand-in for the real client: the controller's devices ([remote]) and
    the client's copy of them ([cached]).  A poll refreshes the copy, the
    lookups read the copy, a setter writes to the controller. *)
Module Fake.
Record t : Type := {
  remote : list (string * ClimateDevice.t);
  cached : list (string * ClimateDevice.t)
}.

Definition update (device_id : string)
    (f : ClimateDevice.t -> ClimateDevice.t)
    (items : list (string * ClimateDevice.t))
  : list (string * ClimateDevice.t) :=
  map (fun '(did, d) => if did =? device_id then (did, f d) else (did, d))
      items.

Definition with_target (x : float) (d : ClimateDevice.t) : ClimateDevice.t :=
  {| ClimateDevice.name := ClimateDevice.name d;
     ClimateDevice.current_temperature := ClimateDevice.current_temperature d;
     ClimateDevice.target_temperature := Some x;
     ClimateDevice.hvac_mode := ClimateDevice.hvac_mode d;
     ClimateDevice.hvac_action := ClimateDevice.hvac_action d;
     ClimateDevice.preset_mode := ClimateDevice.preset_mode d;
     ClimateDevice.available := ClimateDevice.available d |}.

Definition with_mode (m : string) (d : ClimateDevice.t) : ClimateDevice.t :=
  {| ClimateDevice.name := ClimateDevice.name d;
     ClimateDevice.current_temperature := ClimateDevice.current_temperature d;
     ClimateDevice.target_temperature := ClimateDevice.target_temperature d;
     ClimateDevice.hvac_mode := Some m;
     ClimateDevice.hvac_action := ClimateDevice.hvac_action d;
     ClimateDevice.preset_mode := ClimateDevice.preset_mode d;
     ClimateDevice.available := ClimateDevice.available d |}.

Definition with_preset (p : string) (d : ClimateDevice.t) : ClimateDevice.t :=
  {| ClimateDevice.name := ClimateDevice.name d;
     ClimateDevice.current_temperature := ClimateDevice.current_temperature d;
     ClimateDevice.target_temperature := ClimateDevice.target_temperature d;
     ClimateDevice.hvac_mode := ClimateDevice.hvac_mode d;
     ClimateDevice.hvac_action := ClimateDevice.hvac_action d;
     ClimateDevice.preset_mode := Some p;
     ClimateDevice.available := ClimateDevice.available d |}.

Definition write (f : ClimateDevice.t -> ClimateDevice.t)
    (g : t) (device_id : string) : t :=
  {| remote := update device_id f (remote g); cached := cached g |}.

#[global] Instance gateway : Gateway t := {
  gw_new _ _ := {| remote := []; cached := [] |};
  gw_connect g := g;
  gw_close g := g;
  gw_poll_status g := {| remote := remote g; cached := remote g |};
  gw_get_climate_devices g := cached g;
  gw_get_climate_device g device_id := lookup device_id (cached g);
  gw_set_climate_device_temperature g device_id x :=
    write (with_target x) g device_id;
  gw_set_climate_device_mode g device_id m :=
    write (with_mode m) g device_id;
  gw_set_climate_device_preset g device_id p :=
    write (with_preset p) g device_id
}.

Definition thermostat (name : string) (target : float) : ClimateDevice.t :=
  {| ClimateDevice.name := name;
     ClimateDevice.current_temperature := Some 19.5%float;
     ClimateDevice.target_temperature := Some target;
     ClimateDevice.hvac_mode := Some "heat";
     ClimateDevice.hvac_action := None;
     ClimateDevice.preset_mode := Some "Follow Schedule";
     ClimateDevice.available := true |}.

(** Two thermostats on the controller, not polled yet. *)
Definition house : t :=
  {| remote := [("A", thermostat "Hall" 20%float);
                ("C", thermostat "Attic" 17%float)];
     cached := [] |}.

(** An environment that sets the host and leaves the identifier unset. *)
Definition environ_without_euid (name : string) : option string :=
  if name =? "SALUS_GATEWAY_HOST" then Some "192.168.1.20" else None.

(** An environment that sets both variables. *)
Definition environ_complete (name : string) : option string :=
  if name =? "SALUS_GATEWAY_HOST" then Some "192.168.1.20"
  else if name =? "SALUS_GATEWAY_EUID" then Some "001E5E0D32906128"
  else None.
End Fake.

(** ** What the zone loop does, id by id *)

Section Zone.
Context {G : Type} `{Gateway G}.

(** The ids of a batch paired with what the lookup answered when the
    loop reached them; [setter] is the mutating call of the endpoint. *)
Fixpoint zone_visits (setter : string -> Effect unit) (g : G)
    (ids : list string) : list (string * option ClimateDevice.t) :=
  match ids with
  | [] => []
  | device_id :: rest =>
      let answer := gw_get_climate_device g device_id in
      (device_id, answer) ::
      zone_visits setter
        (match answer with
         | Some _ => snd (perform (setter device_id) g)
         | None => g
         end) rest
  end.

Fixpoint zone_gateway (setter : string -> Effect unit) (g : G)
    (ids : list string) : G :=
  match ids with
  | [] => g
  | device_id :: rest =>
      zone_gateway setter
        (match gw_get_climate_device g device_id with
         | Some _ => snd (perform (setter device_id) g)
         | None => g
         end) rest
  end.

(** The entry a visit adds to [results]. *)
Definition zone_entry (visit : string * option ClimateDevice.t) : JSON :=
  JObject [("device_id", JString (fst visit));
           ("status", JString match snd visit with
                              | Some _ => "ok"
                              | None => "not_found"
                              end)].

(** The gateway calls of a visit. *)
Definition zone_calls (setter : string -> Effect unit)
    (visit : string * option ClimateDevice.t) : list Event :=
  EvGetClimateDevice (fst visit) (snd visit) ::
  match snd visit with
  | Some _ => [observe (setter (fst visit)) tt]
  | None => []
  end.

Definition found (visit : string * option ClimateDevice.t) : bool :=
  match snd visit with
  | Some _ => true
  | None => false
  end.

End Zone.

(** How many mutating calls, and how many polls, a call log holds. *)
Definition setter_calls (tr : list Event) : nat :=
  length (filter is_setter tr).

Definition polls (tr : list Event) : nat :=
  length (filter is_poll tr).

(** ** The validating constructor of [DeviceResponse] *)

(** [device_to_response] reads seven attributes of whatever object it is
    given and hands them to [DeviceResponse(...)], which validates every
    field against its declared type.  This part models that constructor on
    attribute values that are not typed in advance. *)

(** The scalar values an attribute may hold. *)
Inductive PyValue : Type :=
| PyNone
| PyBool (b : bool)
| PyInt (n : Z)
| PyFloat (x : float)
| PyStr (s : string).

(** A device object, read by attribute. *)
Module DeviceObject.
Record t : Type := {
  name : PyValue;
  current_temperature : PyValue;
  target_temperature : PyValue;
  hvac_mode : PyValue;
  hvac_action : PyValue;
  preset_mode : PyValue;
  available : PyValue
}.
End DeviceObject.

(** The rules by which the validation library turns a value that is not of
    the declared type into one that is (an int into a float, a numeric
    string into a float, 1 into True), or refuses it.  They belong to the
    library, so they are a parameter.  [None] stands for a refusal. *)
Record Conversions : Type := {
  to_str : PyValue -> option string;
  to_float : PyValue -> option float;
  to_bool : PyValue -> option bool
}.

(** The validators of the three field types: a value of the declared type
    is taken as it is, [None] is not a value of any of them, and every
    other value goes through the library's conversions. *)
Definition validate_str (conv : Conversions) (v : PyValue) : option string :=
  match v with
  | PyStr s => Some s
  | PyNone => None
  | other => to_str conv other
  end.

Definition validate_float (conv : Conversions) (v : PyValue) : option float :=
  match v with
  | PyFloat x => Some x
  | PyNone => None
  | other => to_float conv other
  end.

Definition validate_bool (conv : Conversions) (v : PyValue) : option bool :=
  match v with
  | PyBool b => Some b
  | PyNone => None
  | other => to_bool conv other
  end.

(** A field declared [T | None]: [None] is accepted as [None], any other
    value is validated as a [T]. *)
Definition nullable {A : Type} (validate : PyValue -> option A) (v : PyValue)
  : option (option A) :=
  match v with
  | PyNone => Some None
  | other => option_map Some (validate other)
  end.

(** The error of the constructor names the fields it refused. *)
Inductive ValidationError : Type :=
| MkValidationError (fields : list string).

Definition refused {A : Type} (field : string) (validated : option A)
  : list string :=
  match validated with
  | Some _ => []
  | None => [field]
  end.

(** [DeviceResponse(id=..., name=..., ...)], lines 56-64: every field is
    validated, and the model is built when none was refused. *)
Definition DeviceResponse_init (conv : Conversions)
    (id name current_temperature target_temperature
     hvac_mode hvac_action preset_mode available : PyValue)
  : ValidationError + DeviceResponse.t :=
  let v_id := validate_str conv id in
  let v_name := validate_str conv name in
  let v_current := nullable (validate_float conv) current_temperature in
  let v_target := nullable (validate_float conv) target_temperature in
  let v_mode := nullable (validate_str conv) hvac_mode in
  let v_action := nullable (validate_str conv) hvac_action in
  let v_preset := nullable (validate_str conv) preset_mode in
  let v_available := validate_bool conv available in
  match v_id, v_name, v_current, v_target,
        v_mode, v_action, v_preset, v_available with
  | Some i, Some n, Some c, Some t, Some m, Some a, Some p, Some av =>
      inr {| DeviceResponse.id := i;
             DeviceResponse.name := n;
             DeviceResponse.current_temperature := c;
             DeviceResponse.target_temperature := t;
             DeviceResponse.hvac_mode := m;
             DeviceResponse.hvac_action := a;
             DeviceResponse.preset_mode := p;
             DeviceResponse.available := av |}
  | _, _, _, _, _, _, _, _ =>
      inl (MkValidationError
             (refused "id" v_id ++ refused "name" v_name ++
              refused "current_temperature" v_current ++
              refused "target_temperature" v_target ++
              refused "hvac_mode" v_mode ++
              refused "hvac_action" v_action ++
              refused "preset_mode" v_preset ++
              refused "available" v_available)%list)
  end.

Module Dynamic.

(** Lines 73-83, on a device object whose attributes are not typed in
    advance.  The id is the route's path parameter, a string. *)
Definition device_to_response (conv : Conversions)
    (device_id : string) (device : DeviceObject.t)
  : ValidationError + DeviceResponse.t :=
  DeviceResponse_init conv
    (PyStr device_id)
    (DeviceObject.name device)
    (DeviceObject.current_temperature device)
    (DeviceObject.target_temperature device)
    (DeviceObject.hvac_mode device)
    (DeviceObject.hvac_action device)
    (DeviceObject.preset_mode device)
    (DeviceObject.available device).





End Dynamic.

(** ** The routes *)

(** The eight routes the decorators declare, each with the path parameter
    and the parsed body its handler receives. *)
Inductive Route : Type :=
| GET_root
| GET_devices
| GET_device (device_id : string)
| POST_device_temperature (device_id : string) (body : TemperatureRequest.t)
| POST_device_mode (device_id : string) (body : ModeRequest.t)
| POST_device_preset (device_id : string) (body : PresetRequest.t)
| POST_zone_temperature (body : ZoneTemperatureRequest.t)
| POST_zone_preset (body : ZonePresetRequest.t).

(** What a handler hands back: a dict, or the model named by the route's
    [response_model]. *)
Inductive Body : Type :=
| BodyJSON (value : JSON)
| BodyDevice (value : DeviceResponse.t)
| BodyDevices (value : DeviceListResponse.t).

Definition handle (cfg : Config) (route : Route) : Coro Body :=
  match route with
  | GET_root => value <- root cfg ;; Return (BodyJSON value)
  | GET_devices => value <- get_devices ;; Return (BodyDevices value)
  | GET_device device_id =>
      value <- get_device device_id ;; Return (BodyDevice value)
  | POST_device_temperature device_id body =>
      value <- set_temperature device_id body ;; Return (BodyJSON value)
  | POST_device_mode device_id body =>
      value <- set_mode device_id body ;; Return (BodyJSON value)
  | POST_device_preset device_id body =>
      value <- set_preset device_id body ;; Return (BodyJSON value)
  | POST_zone_temperature body =>
      value <- set_zone_temperature body ;; Return (BodyJSON value)
  | POST_zone_preset body =>
      value <- set_zone_preset body ;; Return (BodyJSON value)
  end.

Definition is_get (route : Route) : bool :=
  match route with
  | GET_root | GET_devices | GET_device _ => true
  | _ => false
  end.

Definition is_root (route : Route) : bool :=
  match route with
  | GET_root => true
  | _ => false
  end.

(** More ways to count in a call log. *)
Definition is_lookup (ev : Event) : bool :=
  match ev with
  | EvGetClimateDevice _ _ | EvGetClimateDevices _ => true
  | _ => false
  end.

Definition is_lifecycle (ev : Event) : bool :=
  match ev with
  | EvConnect | EvClose => true
  | _ => false
  end.

Definition lookups (tr : list Event) : nat :=
  length (filter is_lookup tr).

(** The [results] entry of a zone answer for an id, by whether its device
    was there. *)
Definition zone_result (device_id : string) (present : bool) : JSON :=
  JObject [("device_id", JString device_id);
           ("status", JString (if present then "ok" else "not_found"))].

Definition is_some {A : Type} (x : option A) : bool :=
  match x with
  | Some _ => true
  | None => false
  end.

(** ** Properties *)

Lemma py_in_true (x : string) (l : list string) :
  py_in x l = true <-> In x l.
Proof.
  unfold py_in. rewrite existsb_exists. split.
  - intros [y [Hy Heq]]. apply String.eqb_eq in Heq. now subst.
  - intros Hin. exists x. split; [assumption | apply String.eqb_refl].
Qed.

Lemma py_in_false (x : string) (l : list string) :
  py_in x l = false <-> ~ In x l.
Proof.
  rewrite <- py_in_true. destruct (py_in x l); split; congruence.
Qed.

Lemma lookup_find (device_id : string)
    (items : list (string * ClimateDevice.t)) :
  find (fun v => DeviceResponse.id v =? device_id)
       (map (fun '(did, d) => device_to_response did d) items)
  = option_map (device_to_response device_id) (lookup device_id items).
Proof.
  induction items as [| [did d] rest IH]; simpl; [reflexivity |].
  destruct (did =? device_id) eqn:E; [| exact IH].
  apply String.eqb_eq in E. now subst.
Qed.

Section RunFacts.
Context {G : Type} `{Gateway G}.

Lemma run_bind {A B : Type} (c : Coro A) (f : A -> Coro B) (g : G) :
  run (bind c f) g =
  match outcome (run c g) with
  | Returned a =>
      let r := run (f a) (gateway_after (run c g)) in
      {| outcome := outcome r;
         gateway_after := gateway_after r;
         trace := (trace (run c g) ++ trace r)%list |}
  | Raised e =>
      {| outcome := Raised e;
         gateway_after := gateway_after (run c g);
         trace := trace (run c g) |}
  end.
Proof.
  revert g. induction c as [a | e | X e k IH]; intros g; simpl.
  - now destruct (run (f a) g).
  - reflexivity.
  - destruct (perform e g) as [x g']. rewrite IH.
    now destruct (outcome (run (k x) g')).
Qed.

(** The loop shared by the two zone endpoints, from any gateway state and
    any list of results collected so far. *)
Lemma run_zone_loop (setter : string -> Effect unit) (ids : list string) :
  forall (g : G) (results : list JSON),
    run (for_each ids
           (fun device_id results =>
              device <- call (GetClimateDevice device_id) ;;
              match device with
              | Some _ =>
                  call (setter device_id) ;;
                  Return (results ++
                    [JObject [("device_id", JString device_id);
                              ("status", JString "ok")]])%list
              | None =>
                  Return (results ++
                    [JObject [("device_id", JString device_id);
                              ("status", JString "not_found")]])%list
              end)
           results) g
    = {| outcome :=
           Returned (results ++
                     map zone_entry (zone_visits setter g ids))%list;
         gateway_after := zone_gateway setter g ids;
         trace := flat_map (zone_calls setter) (zone_visits setter g ids) |}.
Proof.
  induction ids as [| device_id rest IH]; intros g results.
  - simpl. now rewrite app_nil_r.
  - cbn [for_each zone_visits zone_gateway map flat_map].
    rewrite run_bind. simpl.
    destruct (gw_get_climate_device g device_id) as [d |] eqn:E; simpl.
    + destruct (perform (setter device_id) g) as [[] g'] eqn:P. simpl.
      rewrite IH. simpl. rewrite <- app_assoc. reflexivity.
    + rewrite IH. simpl. rewrite <- app_assoc. reflexivity.
Qed.

Lemma zone_visits_ids (setter : string -> Effect unit) (ids : list string) :
  forall g : G, map fst (zone_visits setter g ids) = ids.
Proof.
  induction ids as [| device_id rest IH]; intros g; simpl;
    [reflexivity | now rewrite IH].
Qed.

Lemma zone_calls_setters (setter : string -> Effect unit)
    (visits : list (string * option ClimateDevice.t)) :
  (forall device_id, is_setter (observe (setter device_id) tt) = true) ->
  filter is_setter (flat_map (zone_calls setter) visits)
  = map (fun v => observe (setter (fst v)) tt) (filter found visits).
Proof.
  intros Hs. induction visits as [| [device_id [d |]] rest IH]; simpl.
  - reflexivity.
  - rewrite Hs. simpl. now rewrite IH.
  - exact IH.
Qed.

Lemma zone_calls_polls (setter : string -> Effect unit)
    (visits : list (string * option ClimateDevice.t)) :
  (forall device_id, is_poll (observe (setter device_id) tt) = false) ->
  filter is_poll (flat_map (zone_calls setter) visits) = [].
Proof.
  intros Hs. induction visits as [| [device_id [d |]] rest IH]; simpl.
  - reflexivity.
  - rewrite Hs. exact IH.
  - exact IH.
Qed.

(** With a client whose setters leave the cached devices alone (pyit600
    refreshes them in [poll_status] only), every id of the batch is looked
    up in the state the poll left. *)
Lemma zone_visits_stable (setter : string -> Effect unit) (ids : list string) :
  (forall (g : G) device_id other,
      gw_get_climate_device (snd (perform (setter device_id) g)) other
      = gw_get_climate_device g other) ->
  forall g : G,
    zone_visits setter g ids
    = map (fun device_id => (device_id, gw_get_climate_device g device_id))
          ids.
Proof.
  intros Hstable. induction ids as [| device_id rest IH]; intros g; simpl.
  - reflexivity.
  - f_equal. rewrite IH. apply map_ext. intros other.
    destruct (gw_get_climate_device g device_id); [| reflexivity].
    now rewrite Hstable.
Qed.

End RunFacts.

Section ZoneProperties.
Context {G : Type} `{Gateway G}.

Lemma run_set_zone_temperature (g : G) (request : ZoneTemperatureRequest.t) :
  let setter := fun device_id =>
    SetClimateDeviceTemperature device_id
      (ZoneTemperatureRequest.temperature request) in
  let ids := ZoneTemperatureRequest.device_ids request in
  run (set_zone_temperature request) g
  = {| outcome := Returned (JObject
         [("status", JString "ok");
          ("temperature",
           JNumber (ZoneTemperatureRequest.temperature request));
          ("results",
           JArray (map zone_entry
                     (zone_visits setter (gw_poll_status g) ids)))]);
       gateway_after := zone_gateway setter (gw_poll_status g) ids;
       trace := EvPollStatus ::
                flat_map (zone_calls setter)
                  (zone_visits setter (gw_poll_status g) ids) |}.
Proof.
  intros setter ids. unfold set_zone_temperature.
  cbn [bind call run perform observe].
  rewrite run_bind.
  rewrite (run_zone_loop setter). simpl. now rewrite app_nil_r.
Qed.

Lemma run_set_zone_preset (g : G) (request : ZonePresetRequest.t) :
  let setter := fun device_id =>
    SetClimateDevicePreset device_id (ZonePresetRequest.preset request) in
  let ids := ZonePresetRequest.device_ids request in
  run (set_zone_preset request) g
  = if py_in (ZonePresetRequest.preset request)
             ["Follow Schedule"; "Permanent Hold"; "Off"]
    then
      {| outcome := Returned (JObject
           [("status", JString "ok");
            ("preset", JString (ZonePresetRequest.preset request));
            ("results",
             JArray (map zone_entry
                       (zone_visits setter (gw_poll_status g) ids)))]);
         gateway_after := zone_gateway setter (gw_poll_status g) ids;
         trace := EvPollStatus ::
                  flat_map (zone_calls setter)
                    (zone_visits setter (gw_poll_status g) ids) |}
    else
      {| outcome := Raised (HTTP 400
           "Invalid preset. Must be one of: ['Follow Schedule', 'Permanent Hold', 'Off']");
         gateway_after := gw_poll_status g;
         trace := [EvPollStatus] |}.
Proof.
  intros setter ids. unfold set_zone_preset.
  cbn [bind call run perform observe].
  destruct (py_in (ZonePresetRequest.preset request) _) eqn:E;
    cbn [negb]; [| reflexivity].
  rewrite run_bind.
  rewrite (run_zone_loop setter). simpl. now rewrite app_nil_r.
Qed.

(** C1.  Both zone endpoints walk the requested ids in order and add one
    entry per id to [results]: the visits of the loop carry exactly the
    requested ids, in the order of the request; the entry of a visit is
    [ok] when the lookup found the device and [not_found] when it did
    not, and the loop goes on to the next id in both cases; the gateway
    is asked once for every id, and the setter is called once for each id
    whose device was found and for no other.  An id written twice in the
    request is visited twice.  For the preset endpoint this is the
    behaviour once the preset is an accepted one. *)
Theorem zone_one_outcome_per_id
    (g : G) (ids : list string) (temperature : float) (preset : string) :
  In preset ["Follow Schedule"; "Permanent Hold"; "Off"] ->
  let set_t := fun device_id =>
    SetClimateDeviceTemperature device_id temperature in
  let set_p := fun device_id => SetClimateDevicePreset device_id preset in
  let visits_t := zone_visits set_t (gw_poll_status g) ids in
  let visits_p := zone_visits set_p (gw_poll_status g) ids in
  let run_t :=
    run (set_zone_temperature
           {| ZoneTemperatureRequest.device_ids := ids;
              ZoneTemperatureRequest.temperature := temperature |}) g in
  let run_p :=
    run (set_zone_preset
           {| ZonePresetRequest.device_ids := ids;
              ZonePresetRequest.preset := preset |}) g in
  (map fst visits_t = ids /\
   outcome run_t = Returned (JObject
     [("status", JString "ok");
      ("temperature", JNumber temperature);
      ("results", JArray (map zone_entry visits_t))]) /\
   length (map zone_entry visits_t) = length ids /\
   trace run_t = EvPollStatus :: flat_map (zone_calls set_t) visits_t /\
   filter is_setter (trace run_t)
   = map (fun v => EvSetTemperature (fst v) temperature)
         (filter found visits_t))
  /\
  (map fst visits_p = ids /\
   outcome run_p = Returned (JObject
     [("status", JString "ok");
      ("preset", JString preset);
      ("results", JArray (map zone_entry visits_p))]) /\
   length (map zone_entry visits_p) = length ids /\
   trace run_p = EvPollStatus :: flat_map (zone_calls set_p) visits_p /\
   filter is_setter (trace run_p)
   = map (fun v => EvSetPreset (fst v) preset) (filter found visits_p)).
Proof.
  intros Hvalid set_t set_p visits_t visits_p run_t run_p.
  apply py_in_true in Hvalid.
  split.
  - subst run_t. rewrite run_set_zone_temperature. cbn [outcome trace].
    cbn [ZoneTemperatureRequest.device_ids
         ZoneTemperatureRequest.temperature].
    fold set_t. fold visits_t.
    repeat split.
    + apply zone_visits_ids.
    + rewrite length_map, <- (length_map fst). f_equal.
      apply zone_visits_ids.
    + cbn [filter is_setter].
      now rewrite (zone_calls_setters set_t) by reflexivity.
  - subst run_p. rewrite run_set_zone_preset.
    cbn [ZonePresetRequest.device_ids ZonePresetRequest.preset].
    rewrite Hvalid. cbn [outcome trace].
    fold set_p. fold visits_p.
    repeat split.
    + apply zone_visits_ids.
    + rewrite length_map, <- (length_map fst). f_equal.
      apply zone_visits_ids.
    + cbn [filter is_setter].
      now rewrite (zone_calls_setters set_p) by reflexivity.
Qed.

End ZoneProperties.

(** The request of the spec's batch example: A and C are on the controller,
    B is not.  The results keep the order A, B, C and the setter reaches A
    and C. *)
Lemma zone_one_outcome_per_id_example :
  In "Off" ["Follow Schedule"; "Permanent Hold"; "Off"] /\
  outcome (run (set_zone_temperature
                  {| ZoneTemperatureRequest.device_ids := ["A"; "B"; "C"];
                     ZoneTemperatureRequest.temperature := 21.5%float |})
               Fake.house)
  = Returned (JObject
      [("status", JString "ok");
       ("temperature", JNumber 21.5%float);
       ("results", JArray
          [JObject [("device_id", JString "A"); ("status", JString "ok")];
           JObject [("device_id", JString "B");
                    ("status", JString "not_found")];
           JObject [("device_id", JString "C"); ("status", JString "ok")]])])
  /\
  filter is_setter
    (trace (run (set_zone_temperature
                   {| ZoneTemperatureRequest.device_ids := ["A"; "B"; "C"];
                      ZoneTemperatureRequest.temperature := 21.5%float |})
                Fake.house))
  = [EvSetTemperature "A" 21.5%float; EvSetTemperature "C" 21.5%float]
  /\
  outcome (run (set_zone_preset
                  {| ZonePresetRequest.device_ids := ["A"; "B"; "C"];
                     ZonePresetRequest.preset := "Off" |})
               Fake.house)
  = Returned (JObject
      [("status", JString "ok");
       ("preset", JString "Off");
       ("results", JArray
          [JObject [("device_id", JString "A"); ("status", JString "ok")];
           JObject [("device_id", JString "B");
                    ("status", JString "not_found")];
           JObject [("device_id", JString "C"); ("status", JString "ok")]])]).
Proof.
  assert (Hin : In "Off" ["Follow Schedule"; "Permanent Hold"; "Off"])
    by (simpl; auto).
  split; [exact Hin |].
  destruct (zone_one_outcome_per_id Fake.house ["A"; "B"; "C"]
              21.5%float "Off" Hin)
    as [[_ [Ht [_ [_ Hs]]]] [_ [Hp _]]].
  split; [exact Ht | split; [exact Hs | exact Hp]].
Defined.

Section ZoneValidation.
Context {G : Type} `{Gateway G}.

(** C2.  A preset outside the three accepted strings fails the whole
    batch, whatever the ids: the outcome is HTTP 400, its message names
    each accepted preset, and the poll is the only gateway call of the
    request, so no setter is called for any device. *)
Theorem zone_preset_rejects_unknown_preset
    (g : G) (ids : list string) (preset : string) :
  ~ In preset ["Follow Schedule"; "Permanent Hold"; "Off"] ->
  let r := run (set_zone_preset
                  {| ZonePresetRequest.device_ids := ids;
                     ZonePresetRequest.preset := preset |}) g in
  let message :=
    "Invalid preset. Must be one of: ['Follow Schedule', 'Permanent Hold', 'Off']" in
  outcome r = Raised (HTTP 400 message) /\
  forallb (fun accepted => contains accepted message)
          ["Follow Schedule"; "Permanent Hold"; "Off"] = true /\
  trace r = [EvPollStatus] /\
  setter_calls (trace r) = 0.
Proof.
  intros Hbad r message. apply py_in_false in Hbad.
  subst r. rewrite run_set_zone_preset.
  cbn [ZonePresetRequest.preset]. rewrite Hbad.
  repeat split.
Qed.

(** C3, as the code has it.  The poll is the first step of the zone-preset
    request and is made exactly once, whatever the number of ids and
    whether the preset is accepted or not.  The preset is checked right
    after the poll and before any device is looked up or set: when it is
    rejected the request ends with HTTP 400 and the poll is its only
    gateway call; when it is accepted the calls for the devices all come
    after the poll and none of them is a poll. *)
Theorem zone_preset_polls_once_then_validates
    (g : G) (ids : list string) (preset : string) :
  let setter := fun device_id => SetClimateDevicePreset device_id preset in
  let r := run (set_zone_preset
                  {| ZonePresetRequest.device_ids := ids;
                     ZonePresetRequest.preset := preset |}) g in
  let device_calls :=
    if py_in preset ["Follow Schedule"; "Permanent Hold"; "Off"]
    then flat_map (zone_calls setter)
           (zone_visits setter (gw_poll_status g) ids)
    else [] in
  trace r = EvPollStatus :: device_calls /\
  polls (trace r) = 1 /\
  polls device_calls = 0 /\
  (if py_in preset ["Follow Schedule"; "Permanent Hold"; "Off"]
   then exists body, outcome r = Returned body
   else outcome r = Raised (HTTP 400
     "Invalid preset. Must be one of: ['Follow Schedule', 'Permanent Hold', 'Off']")).
Proof.
  intros setter r device_calls. subst r device_calls.
  rewrite run_set_zone_preset.
  cbn [ZonePresetRequest.preset ZonePresetRequest.device_ids].
  fold setter.
  destruct (py_in preset _); cbn [trace outcome].
  - unfold polls. cbn [filter is_poll].
    rewrite (zone_calls_polls setter) by reflexivity.
    repeat split. eexists. reflexivity.
  - repeat split.
Qed.

(** C9.  With no device id in the request, each zone endpoint polls once,
    calls no setter and answers with status ok, the value of the request
    and an empty list of results. *)
Theorem zone_empty_batch (g : G) (temperature : float) (preset : string) :
  In preset ["Follow Schedule"; "Permanent Hold"; "Off"] ->
  (run (set_zone_temperature
         {| ZoneTemperatureRequest.device_ids := [];
            ZoneTemperatureRequest.temperature := temperature |}) g
  = {| outcome := Returned (JObject
         [("status", JString "ok");
          ("temperature", JNumber temperature);
          ("results", JArray [])]);
       gateway_after := gw_poll_status g;
       trace := [EvPollStatus] |}
   /\
   run (set_zone_preset
          {| ZonePresetRequest.device_ids := [];
             ZonePresetRequest.preset := preset |}) g
   = {| outcome := Returned (JObject
          [("status", JString "ok");
           ("preset", JString preset);
           ("results", JArray [])]);
        gateway_after := gw_poll_status g;
        trace := [EvPollStatus] |})
  /\
  polls (trace (run (set_zone_temperature
                       {| ZoneTemperatureRequest.device_ids := [];
                          ZoneTemperatureRequest.temperature :=
                            temperature |}) g)) = 1 /\
  polls (trace (run (set_zone_preset
                       {| ZonePresetRequest.device_ids := [];
                          ZonePresetRequest.preset := preset |}) g)) = 1 /\
  setter_calls
    (trace (run (set_zone_temperature
                   {| ZoneTemperatureRequest.device_ids := [];
                      ZoneTemperatureRequest.temperature :=
                        temperature |}) g)) = 0 /\
  setter_calls
    (trace (run (set_zone_preset
                   {| ZonePresetRequest.device_ids := [];
                      ZonePresetRequest.preset := preset |}) g)) = 0.
Proof.
  intros Hvalid. apply py_in_true in Hvalid.
  rewrite run_set_zone_preset.
  cbn [ZonePresetRequest.preset ZonePresetRequest.device_ids].
  rewrite Hvalid.
  repeat split.
Qed.

End ZoneValidation.

Lemma zone_preset_rejects_unknown_preset_example :
  ~ In "off" ["Follow Schedule"; "Permanent Hold"; "Off"] /\
  outcome (run (set_zone_preset
                  {| ZonePresetRequest.device_ids := ["A"; "B"; "C"];
                     ZonePresetRequest.preset := "off" |}) Fake.house)
  = Raised (HTTP 400
      "Invalid preset. Must be one of: ['Follow Schedule', 'Permanent Hold', 'Off']")
  /\
  setter_calls
    (trace (run (set_zone_preset
                   {| ZonePresetRequest.device_ids := ["A"; "B"; "C"];
                      ZonePresetRequest.preset := "off" |}) Fake.house))
  = 0.
Proof.
  assert (Hbad : ~ In "off" ["Follow Schedule"; "Permanent Hold"; "Off"]).
  { simpl. intros [E | [E | [E | []]]]; discriminate E. }
  split; [exact Hbad |].
  destruct (zone_preset_rejects_unknown_preset
              Fake.house ["A"; "B"; "C"] "off" Hbad) as [Ho [_ [_ Hs]]].
  split; [exact Ho | exact Hs].
Defined.

(** The preset of this request is not an accepted one, and still the
    gateway was polled: the client's copy of the devices, empty before the
    request, holds the controller's devices after it. *)
Lemma zone_preset_polls_before_validating :
  py_in "Bogus" ["Follow Schedule"; "Permanent Hold"; "Off"] = false /\
  trace (run (set_zone_preset
                {| ZonePresetRequest.device_ids := ["A"];
                   ZonePresetRequest.preset := "Bogus" |}) Fake.house)
  = [EvPollStatus] /\
  Fake.cached Fake.house = [] /\
  Fake.cached
    (gateway_after
       (run (set_zone_preset
               {| ZonePresetRequest.device_ids := ["A"];
                  ZonePresetRequest.preset := "Bogus" |}) Fake.house))
  = Fake.remote Fake.house.
Proof.
  repeat split.
Qed.

Lemma zone_empty_batch_example :
  In "Permanent Hold" ["Follow Schedule"; "Permanent Hold"; "Off"] /\
  run (set_zone_preset
         {| ZonePresetRequest.device_ids := [];
            ZonePresetRequest.preset := "Permanent Hold" |}) Fake.house
  = {| outcome := Returned (JObject
         [("status", JString "ok");
          ("preset", JString "Permanent Hold");
          ("results", JArray [])]);
       gateway_after := gw_poll_status Fake.house;
       trace := [EvPollStatus] |}.
Proof.
  assert (Hin : In "Permanent Hold"
                   ["Follow Schedule"; "Permanent Hold"; "Off"])
    by (simpl; auto).
  split; [exact Hin |].
  exact (proj2 (proj1 (zone_empty_batch Fake.house 18%float
                         "Permanent Hold" Hin))).
Defined.

Section SingleDevice.
Context {G : Type} `{Gateway G}.

Lemma run_set_mode (g : G) (device_id mode : string) :
  run (set_mode device_id {| ModeRequest.mode := mode |}) g
  = match gw_get_climate_device (gw_poll_status g) device_id with
    | None =>
        {| outcome := Raised
             (HTTP 404 ("Device " ++ device_id ++ " not found"));
           gateway_after := gw_poll_status g;
           trace := [EvPollStatus; EvGetClimateDevice device_id None] |}
    | Some d =>
        if py_in mode ["off"; "heat"; "auto"]
        then
          {| outcome := Returned (JObject
               [("status", JString "ok");
                ("device_id", JString device_id);
                ("mode", JString mode)]);
             gateway_after :=
               gw_set_climate_device_mode (gw_poll_status g) device_id mode;
             trace := [EvPollStatus;
                       EvGetClimateDevice device_id (Some d);
                       EvSetMode device_id mode] |}
        else
          {| outcome := Raised (HTTP 400
               "Invalid mode. Must be one of: ['off', 'heat', 'auto']");
             gateway_after := gw_poll_status g;
             trace := [EvPollStatus;
                       EvGetClimateDevice device_id (Some d)] |}
    end.
Proof.
  unfold set_mode. cbn [bind call run perform observe].
  destruct (gw_get_climate_device (gw_poll_status g) device_id) as [d |];
    [| reflexivity].
  cbn [ModeRequest.mode].
  destruct (py_in mode _); reflexivity.
Qed.

Lemma run_set_preset (g : G) (device_id preset : string) :
  run (set_preset device_id {| PresetRequest.preset := preset |}) g
  = match gw_get_climate_device (gw_poll_status g) device_id with
    | None =>
        {| outcome := Raised
             (HTTP 404 ("Device " ++ device_id ++ " not found"));
           gateway_after := gw_poll_status g;
           trace := [EvPollStatus; EvGetClimateDevice device_id None] |}
    | Some d =>
        if py_in preset ["Follow Schedule"; "Permanent Hold"; "Off"]
        then
          {| outcome := Returned (JObject
               [("status", JString "ok");
                ("device_id", JString device_id);
                ("preset", JString preset)]);
             gateway_after :=
               gw_set_climate_device_preset (gw_poll_status g)
                 device_id preset;
             trace := [EvPollStatus;
                       EvGetClimateDevice device_id (Some d);
                       EvSetPreset device_id preset] |}
        else
          {| outcome := Raised (HTTP 400
               "Invalid preset. Must be one of: ['Follow Schedule', 'Permanent Hold', 'Off']");
             gateway_after := gw_poll_status g;
             trace := [EvPollStatus;
                       EvGetClimateDevice device_id (Some d)] |}
    end.
Proof.
  unfold set_preset. cbn [bind call run perform observe].
  destruct (gw_get_climate_device (gw_poll_status g) device_id) as [d |];
    [| reflexivity].
  cbn [PresetRequest.preset].
  destruct (py_in preset _); reflexivity.
Qed.

Lemma run_set_temperature (g : G) (device_id : string) (x : float) :
  run (set_temperature device_id
         {| TemperatureRequest.temperature := x |}) g
  = match gw_get_climate_device (gw_poll_status g) device_id with
    | None =>
        {| outcome := Raised
             (HTTP 404 ("Device " ++ device_id ++ " not found"));
           gateway_after := gw_poll_status g;
           trace := [EvPollStatus; EvGetClimateDevice device_id None] |}
    | Some d =>
        {| outcome := Returned (JObject
             [("status", JString "ok");
              ("device_id", JString device_id);
              ("temperature", JNumber x)]);
           gateway_after :=
             gw_set_climate_device_temperature (gw_poll_status g)
               device_id x;
           trace := [EvPollStatus;
                     EvGetClimateDevice device_id (Some d);
                     EvSetTemperature device_id x] |}
    end.
Proof.
  unfold set_temperature. cbn [bind call run perform observe].
  destruct (gw_get_climate_device (gw_poll_status g) device_id);
    reflexivity.
Qed.

(** C5.  The three single-device setters run the same steps in the same
    order.  The poll comes first and the lookup of the id second.  If the
    device is absent the request ends there with HTTP 404, also when the
    value is not an accepted one.  If it is present, mode and preset are
    checked next and a rejected value ends the request with HTTP 400;
    temperature has no check.  Only then the setter of the endpoint is
    called, once, with the id and the value of the request, and the
    answer carries both.  A request that fails makes no setter call. *)
Theorem single_device_steps_in_order
    (g : G) (device_id : string) (x : float) (mode preset : string) :
  let g1 := gw_poll_status g in
  let answer := gw_get_climate_device g1 device_id in
  let lookup_calls := [EvPollStatus; EvGetClimateDevice device_id answer] in
  let missing := Raised (HTTP 404 ("Device " ++ device_id ++ " not found")) in
  let confirmation := fun key value =>
    Returned (JObject [("status", JString "ok");
                       ("device_id", JString device_id);
                       (key, value)]) in
  let on_temperature :=
    run (set_temperature device_id
           {| TemperatureRequest.temperature := x |}) g in
  let on_mode :=
    run (set_mode device_id {| ModeRequest.mode := mode |}) g in
  let on_preset :=
    run (set_preset device_id {| PresetRequest.preset := preset |}) g in
  (on_temperature =
   match answer with
   | None => {| outcome := missing; gateway_after := g1;
                trace := lookup_calls |}
   | Some _ =>
       {| outcome := confirmation "temperature" (JNumber x);
          gateway_after := gw_set_climate_device_temperature g1 device_id x;
          trace := (lookup_calls ++ [EvSetTemperature device_id x])%list |}
   end)
  /\
  (on_mode =
   match answer with
   | None => {| outcome := missing; gateway_after := g1;
                trace := lookup_calls |}
   | Some _ =>
       if py_in mode ["off"; "heat"; "auto"]
       then
         {| outcome := confirmation "mode" (JString mode);
            gateway_after := gw_set_climate_device_mode g1 device_id mode;
            trace := (lookup_calls ++ [EvSetMode device_id mode])%list |}
       else
         {| outcome := Raised (HTTP 400
              "Invalid mode. Must be one of: ['off', 'heat', 'auto']");
            gateway_after := g1;
            trace := lookup_calls |}
   end)
  /\
  (on_preset =
   match answer with
   | None => {| outcome := missing; gateway_after := g1;
                trace := lookup_calls |}
   | Some _ =>
       if py_in preset ["Follow Schedule"; "Permanent Hold"; "Off"]
       then
         {| outcome := confirmation "preset" (JString preset);
            gateway_after :=
              gw_set_climate_device_preset g1 device_id preset;
            trace := (lookup_calls ++ [EvSetPreset device_id preset])%list |}
       else
         {| outcome := Raised (HTTP 400
              "Invalid preset. Must be one of: ['Follow Schedule', 'Permanent Hold', 'Off']");
            gateway_after := g1;
            trace := lookup_calls |}
   end)
  /\
  setter_calls (trace on_temperature)
  = match outcome on_temperature with Returned _ => 1 | Raised _ => 0 end
  /\
  setter_calls (trace on_mode)
  = match outcome on_mode with Returned _ => 1 | Raised _ => 0 end
  /\
  setter_calls (trace on_preset)
  = match outcome on_preset with Returned _ => 1 | Raised _ => 0 end.
Proof.
  intros g1 answer lookup_calls missing confirmation
         on_temperature on_mode on_preset.
  subst on_temperature on_mode on_preset.
  rewrite run_set_temperature, run_set_mode, run_set_preset.
  fold g1. fold answer. subst lookup_calls missing confirmation.
  destruct answer as [d |]; [| repeat split].
  destruct (py_in mode _), (py_in preset _); repeat split.
Qed.

(** C4, as the code has it.  A mode that is not exactly one of off, heat
    and auto never reaches the gateway's mode setter, whatever the id.
    When the device of the id is present the outcome is HTTP 400 and its
    message names each accepted mode; when it is absent the lookup has
    already ended the request with HTTP 404.  The test is equality of
    strings: a mode is accepted exactly when it is one of the three. *)
Theorem set_mode_rejects_unknown_mode
    (g : G) (device_id mode : string) :
  ~ In mode ["off"; "heat"; "auto"] ->
  let r := run (set_mode device_id {| ModeRequest.mode := mode |}) g in
  let message := "Invalid mode. Must be one of: ['off', 'heat', 'auto']" in
  setter_calls (trace r) = 0 /\
  outcome r =
    match gw_get_climate_device (gw_poll_status g) device_id with
    | Some _ => Raised (HTTP 400 message)
    | None => Raised (HTTP 404 ("Device " ++ device_id ++ " not found"))
    end /\
  forallb (fun accepted => contains accepted message)
          ["off"; "heat"; "auto"] = true /\
  (forall candidate,
      py_in candidate ["off"; "heat"; "auto"] = true <->
      candidate = "off" \/ candidate = "heat" \/ candidate = "auto").
Proof.
  intros Hbad r message. apply py_in_false in Hbad.
  subst r. rewrite run_set_mode. rewrite Hbad.
  split; [| split; [| split]].
  - now destruct (gw_get_climate_device (gw_poll_status g) device_id).
  - now destruct (gw_get_climate_device (gw_poll_status g) device_id).
  - reflexivity.
  - intros candidate. rewrite py_in_true. simpl.
    intuition congruence.
Qed.

End SingleDevice.

Lemma set_mode_rejects_unknown_mode_example :
  ~ In "Heat" ["off"; "heat"; "auto"] /\
  outcome (run (set_mode "A" {| ModeRequest.mode := "Heat" |}) Fake.house)
  = Raised (HTTP 400 "Invalid mode. Must be one of: ['off', 'heat', 'auto']")
  /\
  setter_calls
    (trace (run (set_mode "A" {| ModeRequest.mode := "Heat" |}) Fake.house))
  = 0.
Proof.
  assert (Hbad : ~ In "Heat" ["off"; "heat"; "auto"]).
  { simpl. intros [E | [E | [E | []]]]; discriminate E. }
  split; [exact Hbad |].
  destruct (set_mode_rejects_unknown_mode Fake.house "A" "Heat" Hbad)
    as [Hs [Ho _]].
  split; [exact Ho | exact Hs].
Defined.

(** An id the gateway does not know, with a mode that is not accepted: the
    request ends with HTTP 404, not 400. *)
Lemma set_mode_unknown_device_is_404 :
  py_in "turbo" ["off"; "heat"; "auto"] = false /\
  gw_get_climate_device (gw_poll_status Fake.house) "B" = None /\
  outcome (run (set_mode "B" {| ModeRequest.mode := "turbo" |}) Fake.house)
  = Raised (HTTP 404 "Device B not found").
Proof.
  repeat split.
Qed.

Section Reading.
Context {G : Type} `{Gateway G}.

Lemma run_get_devices (g : G) :
  run get_devices g
  = {| outcome := Returned
         {| DeviceListResponse.devices :=
              map (fun '(did, d) => device_to_response did d)
                  (gw_get_climate_devices (gw_poll_status g));
            DeviceListResponse.count :=
              Z.of_nat (length (gw_get_climate_devices (gw_poll_status g)))
         |};
       gateway_after := gw_poll_status g;
       trace := [EvPollStatus;
                 EvGetClimateDevices
                   (gw_get_climate_devices (gw_poll_status g))] |}.
Proof. reflexivity. Qed.

Lemma run_get_device (g : G) (device_id : string) :
  run (get_device device_id) g
  = {| outcome :=
         match gw_get_climate_device (gw_poll_status g) device_id with
         | None =>
             Raised (HTTP 404 ("Device " ++ device_id ++ " not found"))
         | Some d => Returned (device_to_response device_id d)
         end;
       gateway_after := gw_poll_status g;
       trace := [EvPollStatus;
                 EvGetClimateDevice device_id
                   (gw_get_climate_device (gw_poll_status g) device_id)] |}.
Proof.
  unfold get_device. cbn [bind call run perform observe].
  destruct (gw_get_climate_device (gw_poll_status g) device_id);
    reflexivity.
Qed.

(** C6.  When the gateway, once polled, gives the same device record for
    an id through the single lookup and through the mapping of all
    devices, GET /device/{id} returns a view, and that view is the entry
    with this id in the list GET /devices returns: all eight fields are
    equal. *)
Theorem get_device_matches_get_devices
    (g : G) (device_id : string) (d : ClimateDevice.t) :
  gw_get_climate_device (gw_poll_status g) device_id = Some d ->
  lookup device_id (gw_get_climate_devices (gw_poll_status g)) = Some d ->
  exists (view : DeviceResponse.t) (listing : DeviceListResponse.t),
    outcome (run (get_device device_id) g) = Returned view /\
    outcome (run get_devices g) = Returned listing /\
    find (fun entry => DeviceResponse.id entry =? device_id)
         (DeviceListResponse.devices listing) = Some view /\
    In view (DeviceListResponse.devices listing).
Proof.
  intros Hone Hall.
  rewrite run_get_device, run_get_devices, Hone. cbn [outcome].
  do 2 eexists. split; [reflexivity |]. split; [reflexivity |].
  cbn [DeviceListResponse.devices].
  assert (Hfind :
    find (fun entry => DeviceResponse.id entry =? device_id)
         (map (fun '(did, d0) => device_to_response did d0)
              (gw_get_climate_devices (gw_poll_status g)))
    = Some (device_to_response device_id d)).
  { rewrite lookup_find, Hall. reflexivity. }
  split; [exact Hfind |].
  apply find_some in Hfind. exact (proj1 Hfind).
Qed.

(** C10.  GET /devices always answers, and in its answer [count] is the
    length of [devices], which holds the view of each entry of the
    gateway's mapping, entry by entry and in the mapping's order. *)
Theorem get_devices_count_is_length (g : G) :
  exists listing : DeviceListResponse.t,
    outcome (run get_devices g) = Returned listing /\
    DeviceListResponse.count listing
    = Z.of_nat (length (DeviceListResponse.devices listing)) /\
    length (DeviceListResponse.devices listing)
    = length (gw_get_climate_devices (gw_poll_status g)) /\
    Forall2 (fun item view =>
               view = device_to_response (fst item) (snd item))
            (gw_get_climate_devices (gw_poll_status g))
            (DeviceListResponse.devices listing).
Proof.
  rewrite run_get_devices. eexists. split; [reflexivity |].
  cbn [DeviceListResponse.count DeviceListResponse.devices].
  rewrite length_map. split; [reflexivity |]. split; [reflexivity |].
  induction (gw_get_climate_devices (gw_poll_status g))
    as [| [did d] rest IH]; simpl; constructor; [reflexivity | exact IH].
Qed.

End Reading.

Lemma get_device_matches_get_devices_example :
  gw_get_climate_device (gw_poll_status Fake.house) "C"
  = Some (Fake.thermostat "Attic" 17%float) /\
  lookup "C" (gw_get_climate_devices (gw_poll_status Fake.house))
  = Some (Fake.thermostat "Attic" 17%float) /\
  exists (view : DeviceResponse.t) (listing : DeviceListResponse.t),
    outcome (run (get_device "C") Fake.house) = Returned view /\
    outcome (run get_devices Fake.house) = Returned listing /\
    find (fun entry => DeviceResponse.id entry =? "C")
         (DeviceListResponse.devices listing) = Some view /\
    In view (DeviceListResponse.devices listing).
Proof.
  split; [reflexivity |]. split; [reflexivity |].
  exact (get_device_matches_get_devices Fake.house "C"
           (Fake.thermostat "Attic" 17%float) eq_refl eq_refl).
Defined.




Section Startup.
Context {G : Type} `{Gateway G}.

Lemma load_config_unset (getenv : string -> option string) :
  getenv "SALUS_GATEWAY_HOST" = None \/
  getenv "SALUS_GATEWAY_EUID" = None ->
  load_config getenv = inl (MkValueError required_message).
Proof.
  unfold load_config. intros [E | E]; rewrite E.
  - reflexivity.
  - cbn [truthy negb]. now rewrite orb_true_r.
Qed.

(** C8.  If the environment leaves the gateway host or the gateway
    identifier unset, importing the module fails with a [ValueError]:
    the process does not start, the global [gateway] is never assigned
    and no call reaches a gateway, neither [connect] nor any other. *)
Theorem process_refuses_to_start_unconfigured
    (getenv : string -> option string) :
  getenv "SALUS_GATEWAY_HOST" = None \/
  getenv "SALUS_GATEWAY_EUID" = None ->
  process_start (G := G) getenv
  = {| import_error := Some (MkValueError
         "SALUS_GATEWAY_HOST and SALUS_GATEWAY_EUID environment variables are required");
       started_gateway := None;
       startup_trace := [] |}.
Proof.
  intros Hunset. unfold process_start.
  now rewrite (load_config_unset getenv Hunset).
Qed.

(** X2.  With both variables set to non-empty strings the process does
    start: [lifespan] builds the gateway from the two values, connects it
    first, polls it second and then prints the host; the global [gateway]
    is the connected and polled client. *)
Lemma process_starts_configured
    (getenv : string -> option string) (host euid : string) :
  getenv "SALUS_GATEWAY_HOST" = Some host ->
  getenv "SALUS_GATEWAY_EUID" = Some euid ->
  host <> "" -> euid <> "" ->
  process_start (G := G) getenv
  = {| import_error := None;
       started_gateway :=
         Some (gw_poll_status (gw_connect (gw_new host euid)));
       startup_trace :=
         [EvConnect; EvPollStatus;
          EvPrint ("Connected to Salus gateway at " ++ host)] |}.
Proof.
  intros Hh He Nh Ne. unfold process_start, load_config.
  rewrite Hh, He. cbn [truthy].
  apply String.eqb_neq in Nh, Ne. rewrite Nh, Ne. reflexivity.
Qed.

End Startup.

Lemma process_refuses_to_start_unconfigured_example :
  Fake.environ_without_euid "SALUS_GATEWAY_EUID" = None /\
  process_start (G := Fake.t) Fake.environ_without_euid
  = {| import_error := Some (MkValueError required_message);
       started_gateway := None;
       startup_trace := [] |}.
Proof.
  split; [reflexivity |].
  apply (process_refuses_to_start_unconfigured (G := Fake.t)).
  right. reflexivity.
Defined.

(** ** The handlers on the example gateway *)

(** The example of the specification: d1 is known, d2 is not. *)
Example zone_preset_d1_d2 :
  outcome
    (run (set_zone_preset
            {| ZonePresetRequest.device_ids := ["d1"; "d2"];
               ZonePresetRequest.preset := "Off" |})
         {| Fake.remote := [("d1", Fake.thermostat "Hall" 20%float)];
            Fake.cached := [] |})
  = Returned (JObject
      [("status", JString "ok");
       ("preset", JString "Off");
       ("results", JArray
          [JObject [("device_id", JString "d1"); ("status", JString "ok")];
           JObject [("device_id", JString "d2");
                    ("status", JString "not_found")]])]).
Proof. reflexivity. Qed.

(** Setting the same temperature twice succeeds twice, and the device
    reports that target after either request. *)
Example set_temperature_twice :
  let request := {| TemperatureRequest.temperature := 21.5%float |} in
  let first := run (set_temperature "A" request) Fake.house in
  let second := run (set_temperature "A" request) (gateway_after first) in
  let target := fun g =>
    option_map DeviceResponse.target_temperature
      (match outcome (run (get_device "A") g) with
       | Returned view => Some view
       | Raised _ => None
       end) in
  outcome first = outcome second /\
  (exists body, outcome first = Returned body) /\
  target (gateway_after first) = Some (Some 21.5%float) /\
  target (gateway_after second) = Some (Some 21.5%float).
Proof.
  cbv zeta. repeat split. eexists. reflexivity.
Qed.

(** A device id is matched as it is written, and so is a mode. *)
Example set_mode_cases :
  outcome (run (set_mode "A" {| ModeRequest.mode := "auto" |}) Fake.house)
  = Returned (JObject [("status", JString "ok");
                       ("device_id", JString "A");
                       ("mode", JString "auto")]) /\
  outcome (run (set_mode "A" {| ModeRequest.mode := "AUTO" |}) Fake.house)
  = Raised (HTTP 400 "Invalid mode. Must be one of: ['off', 'heat', 'auto']")
  /\
  outcome (run (set_mode "a" {| ModeRequest.mode := "auto" |}) Fake.house)
  = Raised (HTTP 404 "Device a not found").
Proof. repeat split. Qed.

Example get_devices_of_house :
  option_map (map DeviceResponse.id)
    (match outcome (run get_devices Fake.house) with
     | Returned listing => Some (DeviceListResponse.devices listing)
     | Raised _ => None
     end)
  = Some ["A"; "C"].
Proof. reflexivity. Qed.

Example process_starts_with_both_variables :
  startup_trace (process_start (G := Fake.t) Fake.environ_complete)
  = [EvConnect; EvPollStatus;
     EvPrint "Connected to Salus gateway at 192.168.1.20"].
Proof. reflexivity. Qed.

(** ** Further properties: configuration and start *)

Lemma truthy_nonempty (x : option string) :
  truthy x = true <-> exists s, x = Some s /\ s <> "".
Proof.
  destruct x as [s |]; simpl.
  - rewrite negb_true_iff, String.eqb_neq. split.
    + intros Hs. now exists s.
    + intros [s' [E Hs]]. now injection E as ->.
  - split; [discriminate | intros [s [E _]]; discriminate E].
Qed.

Section StartupFurther.
Context {G : Type} `{Gateway G}.

(** X1.  The process starts exactly when both variables are set to strings
    that are not empty: a variable set to the empty string is refused like
    an unset one.  A refused start carries the [ValueError] of the guard,
    leaves the global [gateway] unassigned and calls no gateway. *)
Theorem process_starts_iff_both_nonempty (getenv : string -> option string) :
  let started := process_start (G := G) getenv in
  (import_error started = None <->
   exists host euid,
     getenv "SALUS_GATEWAY_HOST" = Some host /\
     getenv "SALUS_GATEWAY_EUID" = Some euid /\
     host <> "" /\ euid <> "") /\
  match import_error started with
  | Some err =>
      err = MkValueError required_message /\
      started_gateway started = None /\
      startup_trace started = []
  | None => started_gateway started <> None
  end.
Proof.
  cbv zeta. unfold process_start, load_config.
  destruct (truthy (getenv "SALUS_GATEWAY_HOST")) eqn:Th;
    destruct (truthy (getenv "SALUS_GATEWAY_EUID")) eqn:Te; cbn [negb orb].
  - apply truthy_nonempty in Th as [host [Eh Nh]].
    apply truthy_nonempty in Te as [euid [Ee Ne]].
    rewrite Eh, Ee. cbn [import_error started_gateway]. split.
    + split; [intros _; now exists host, euid | reflexivity].
    + discriminate.
  - cbn [import_error started_gateway startup_trace].
    split; [| repeat split].
    split; [discriminate |].
    intros [host [euid [_ [Ee [_ Ne]]]]].
    assert (Hs : truthy (getenv "SALUS_GATEWAY_EUID") = true)
      by (apply truthy_nonempty; now exists euid).
    congruence.
  - cbn [import_error started_gateway startup_trace].
    split; [| repeat split].
    split; [discriminate |].
    intros [host [euid [Eh [_ [Nh _]]]]].
    assert (Hs : truthy (getenv "SALUS_GATEWAY_HOST") = true)
      by (apply truthy_nonempty; now exists host).
    congruence.
  - cbn [import_error started_gateway startup_trace].
    split; [| repeat split].
    split; [discriminate |].
    intros [host [euid [Eh [_ [Nh _]]]]].
    assert (Hs : truthy (getenv "SALUS_GATEWAY_HOST") = true)
      by (apply truthy_nonempty; now exists host).
    congruence.
Qed.

End StartupFurther.

(** The start of a process whose environment sets both variables. *)
Lemma process_starts_configured_example :
  Fake.environ_complete "SALUS_GATEWAY_HOST" = Some "192.168.1.20" /\
  Fake.environ_complete "SALUS_GATEWAY_EUID" = Some "001E5E0D32906128" /\
  process_start (G := Fake.t) Fake.environ_complete
  = {| import_error := None;
       started_gateway :=
         Some (gw_poll_status
                 (gw_connect (gw_new "192.168.1.20" "001E5E0D32906128")));
       startup_trace :=
         [EvConnect; EvPollStatus;
          EvPrint ("Connected to Salus gateway at " ++ "192.168.1.20")] |}.
Proof.
  split; [reflexivity |]. split; [reflexivity |].
  apply (process_starts_configured (G := Fake.t) Fake.environ_complete
           "192.168.1.20" "001E5E0D32906128" eq_refl eq_refl);
    discriminate.
Defined.

(** ** Further properties: one device *)

Lemma prefix_app (x rest : string) : String.prefix x (x ++ rest) = true.
Proof.
  induction x as [| c x IH]; simpl.
  - now destruct rest.
  - destruct (Ascii.ascii_dec c c) as [_ | N]; [exact IH | now elim N].
Qed.

Lemma contains_app (x before rest : string) :
  contains x (before ++ x ++ rest) = true.
Proof.
  induction before as [| c before IH].
  - change ("" ++ x ++ rest) with (x ++ rest).
    destruct (x ++ rest) eqn:E; unfold contains; fold contains;
      rewrite <- E, prefix_app; reflexivity.
  - change (String c before ++ x ++ rest)
      with (String c (before ++ x ++ rest)).
    unfold contains; fold contains. rewrite IH. apply orb_true_r.
Qed.

Section SingleDeviceFurther.
Context {G : Type} `{Gateway G}.

(** X3.  An id the gateway does not know after the poll never gets a
    success from a single-device route.  GET /device/{id} and the three
    setters all end with HTTP 404, whatever the body; the message holds
    the id as it was sent; the poll and the one lookup are the only
    gateway calls. *)
Theorem unknown_device_is_not_found
    (g : G) (device_id : string) (x : float) (mode preset : string) :
  gw_get_climate_device (gw_poll_status g) device_id = None ->
  let not_found := HTTP 404 ("Device " ++ device_id ++ " not found") in
  let calls := [EvPollStatus; EvGetClimateDevice device_id None] in
  (outcome (run (get_device device_id) g) = Raised not_found /\
   trace (run (get_device device_id) g) = calls) /\
  (outcome (run (set_temperature device_id
                   {| TemperatureRequest.temperature := x |}) g)
   = Raised not_found /\
   trace (run (set_temperature device_id
                 {| TemperatureRequest.temperature := x |}) g) = calls) /\
  (outcome (run (set_mode device_id {| ModeRequest.mode := mode |}) g)
   = Raised not_found /\
   trace (run (set_mode device_id {| ModeRequest.mode := mode |}) g)
   = calls) /\
  (outcome (run (set_preset device_id
                   {| PresetRequest.preset := preset |}) g)
   = Raised not_found /\
   trace (run (set_preset device_id {| PresetRequest.preset := preset |}) g)
   = calls) /\
  contains device_id (HTTPException.detail not_found) = true.
Proof.
  intros Hnone not_found calls.
  rewrite run_get_device, run_set_temperature, run_set_mode, run_set_preset.
  rewrite Hnone. cbn [outcome trace].
  repeat split.
  subst not_found. cbn [HTTP HTTPException.detail].
  apply contains_app.
Qed.

(** X4.  A preset that is not exactly one of the three accepted strings
    never reaches the gateway's preset setter through
    POST /device/{id}/preset.  With the device present the outcome is
    HTTP 400 and the gateway is left as the poll left it; with the device
    absent the outcome is HTTP 404. *)
Theorem set_preset_rejects_unknown_preset
    (g : G) (device_id preset : string) :
  ~ In preset ["Follow Schedule"; "Permanent Hold"; "Off"] ->
  let r := run (set_preset device_id
                  {| PresetRequest.preset := preset |}) g in
  setter_calls (trace r) = 0 /\
  gateway_after r = gw_poll_status g /\
  outcome r =
    match gw_get_climate_device (gw_poll_status g) device_id with
    | Some _ => Raised (HTTP 400
        "Invalid preset. Must be one of: ['Follow Schedule', 'Permanent Hold', 'Off']")
    | None => Raised (HTTP 404 ("Device " ++ device_id ++ " not found"))
    end.
Proof.
  intros Hbad r. apply py_in_false in Hbad.
  subst r. rewrite run_set_preset, Hbad.
  destruct (gw_get_climate_device (gw_poll_status g) device_id);
    repeat split.
Qed.

End SingleDeviceFurther.

Lemma unknown_device_is_not_found_example :
  gw_get_climate_device (gw_poll_status Fake.house) "B" = None /\
  outcome (run (get_device "B") Fake.house)
  = Raised (HTTP 404 "Device B not found") /\
  outcome (run (set_preset "B" {| PresetRequest.preset := "Off" |})
               Fake.house)
  = Raised (HTTP 404 "Device B not found").
Proof.
  assert (Hnone : gw_get_climate_device (gw_poll_status Fake.house) "B"
                  = None) by reflexivity.
  split; [exact Hnone |].
  destruct (unknown_device_is_not_found Fake.house "B" 21.5%float
              "heat" "Off" Hnone)
    as [[Hg _] [_ [_ [[Hp _] _]]]].
  split; [exact Hg | exact Hp].
Defined.

Lemma set_preset_rejects_unknown_preset_example :
  ~ In "Holiday" ["Follow Schedule"; "Permanent Hold"; "Off"] /\
  outcome (run (set_preset "A" {| PresetRequest.preset := "Holiday" |})
               Fake.house)
  = Raised (HTTP 400
      "Invalid preset. Must be one of: ['Follow Schedule', 'Permanent Hold', 'Off']")
  /\
  Fake.remote
    (gateway_after
       (run (set_preset "A" {| PresetRequest.preset := "Holiday" |})
            Fake.house))
  = Fake.remote Fake.house.
Proof.
  assert (Hbad : ~ In "Holiday" ["Follow Schedule"; "Permanent Hold"; "Off"]).
  { simpl. intros [E | [E | [E | []]]]; discriminate E. }
  split; [exact Hbad |].
  destruct (set_preset_rejects_unknown_preset Fake.house "A" "Holiday" Hbad)
    as [_ [Hg Ho]].
  split; [exact Ho |].
  rewrite Hg. reflexivity.
Defined.

(** ** Further properties: zones *)

Section ZoneFurther.
Context {G : Type} `{Gateway G}.

Lemma zone_calls_without (p : Event -> bool) (setter : string -> Effect unit)
    (visits : list (string * option ClimateDevice.t)) :
  (forall device_id answer, p (EvGetClimateDevice device_id answer) = false) ->
  (forall device_id, p (observe (setter device_id) tt) = false) ->
  filter p (flat_map (zone_calls setter) visits) = [].
Proof.
  intros Hget Hset.
  induction visits as [| [device_id [d |]] rest IH]; simpl.
  - reflexivity.
  - now rewrite Hget, Hset.
  - now rewrite Hget.
Qed.

Lemma zone_calls_lookups (setter : string -> Effect unit)
    (visits : list (string * option ClimateDevice.t)) :
  (forall device_id, is_lookup (observe (setter device_id) tt) = false) ->
  lookups (flat_map (zone_calls setter) visits) = length visits.
Proof.
  intros Hset. unfold lookups.
  induction visits as [| [device_id [d |]] rest IH]; simpl.
  - reflexivity.
  - rewrite Hset. simpl. now rewrite IH.
  - now rewrite IH.
Qed.

Lemma zone_calls_length (setter : string -> Effect unit)
    (visits : list (string * option ClimateDevice.t)) :
  length (flat_map (zone_calls setter) visits)
  = length visits + length (filter found visits).
Proof.
  induction visits as [| [device_id [d |]] rest IH]; simpl.
  - reflexivity.
  - rewrite IH. lia.
  - now rewrite IH.
Qed.

Lemma zone_visits_length (setter : string -> Effect unit)
    (g : G) (ids : list string) :
  length (zone_visits setter g ids) = length ids.
Proof.
  rewrite <- (length_map fst). f_equal. apply zone_visits_ids.
Qed.

Lemma zone_visits_absent (setter : string -> Effect unit)
    (g : G) (ids : list string) :
  (forall device_id, In device_id ids ->
                     gw_get_climate_device g device_id = None) ->
  zone_visits setter g ids = map (fun device_id => (device_id, None)) ids /\
  zone_gateway setter g ids = g.
Proof.
  induction ids as [| device_id rest IH]; intros Habsent; simpl.
  - split; reflexivity.
  - rewrite (Habsent device_id) by (left; reflexivity).
    destruct IH as [Hv Hg]; [intros other Hin; apply Habsent; now right |].
    rewrite Hv, Hg. split; reflexivity.
Qed.

Lemma zone_entries_absent (ids : list string) :
  map zone_entry (map (fun device_id => (device_id, None)) ids)
  = map (fun device_id => zone_result device_id false) ids.
Proof.
  rewrite map_map. apply map_ext. reflexivity.
Qed.

Lemma zone_calls_absent (setter : string -> Effect unit) (ids : list string) :
  flat_map (zone_calls setter) (map (fun device_id => (device_id, None)) ids)
  = map (fun device_id => EvGetClimateDevice device_id None) ids.
Proof.
  induction ids as [| device_id rest IH]; simpl; [reflexivity |].
  now rewrite IH.
Qed.

(** X5.  The gateway calls of a zone request grow linearly with the batch.
    For a batch of n ids, POST /zone/temperature polls once, looks up n
    times and calls the setter at most n times, so it makes 1 + n + (number
    of setter calls) calls, at most 1 + 2n.  POST /zone/preset has the same
    counts when the preset is accepted and makes the poll alone when it is
    not. *)
Theorem zone_calls_are_linear
    (g : G) (ids : list string) (x : float) (preset : string) :
  let n := length ids in
  let on_temperature :=
    trace (run (set_zone_temperature
                  {| ZoneTemperatureRequest.device_ids := ids;
                     ZoneTemperatureRequest.temperature := x |}) g) in
  let on_preset :=
    trace (run (set_zone_preset
                  {| ZonePresetRequest.device_ids := ids;
                     ZonePresetRequest.preset := preset |}) g) in
  (polls on_temperature = 1 /\
   lookups on_temperature = n /\
   setter_calls on_temperature <= n /\
   length on_temperature = 1 + n + setter_calls on_temperature /\
   length on_temperature <= 1 + 2 * n)
  /\
  (polls on_preset = 1 /\
   lookups on_preset
   = (if py_in preset ["Follow Schedule"; "Permanent Hold"; "Off"]
      then n else 0) /\
   setter_calls on_preset <= lookups on_preset /\
   length on_preset = 1 + lookups on_preset + setter_calls on_preset /\
   length on_preset <= 1 + 2 * n).
Proof.
  intros n on_temperature on_preset. subst on_temperature on_preset.
  rewrite run_set_zone_temperature, run_set_zone_preset.
  cbn [ZoneTemperatureRequest.device_ids ZoneTemperatureRequest.temperature
       ZonePresetRequest.device_ids ZonePresetRequest.preset].
  set (set_t := fun device_id => SetClimateDeviceTemperature device_id x).
  set (set_p := fun device_id => SetClimateDevicePreset device_id preset).
  set (vt := zone_visits set_t (gw_poll_status g) ids).
  set (vp := zone_visits set_p (gw_poll_status g) ids).
  assert (Lt : length vt = n) by apply zone_visits_length.
  assert (Lp : length vp = n) by apply zone_visits_length.
  pose proof (filter_length_le found vt) as Ft.
  pose proof (filter_length_le found vp) as Fp.
  split.
  - cbn [trace]. unfold polls, lookups, setter_calls.
    cbn [filter is_poll is_lookup is_setter length].
    rewrite (zone_calls_polls set_t) by reflexivity.
    fold (lookups (flat_map (zone_calls set_t) vt)).
    rewrite (zone_calls_lookups set_t) by reflexivity.
    rewrite (zone_calls_setters set_t) by reflexivity.
    rewrite length_map, zone_calls_length. cbn [length]. lia.
  - destruct (py_in preset _); cbn [trace].
    + unfold polls, lookups, setter_calls.
      cbn [filter is_poll is_lookup is_setter length].
      rewrite (zone_calls_polls set_p) by reflexivity.
      fold (lookups (flat_map (zone_calls set_p) vp)).
      rewrite (zone_calls_lookups set_p) by reflexivity.
      rewrite (zone_calls_setters set_p) by reflexivity.
      rewrite length_map, zone_calls_length. cbn [length]. lia.
    + unfold polls, lookups, setter_calls. simpl. lia.
Qed.

(** X6.  A batch in which no id is known is still a success, unlike the
    single-device routes: the answer has status ok and one [not_found]
    entry per id, the calls are the poll and one lookup per id, and the
    gateway is left as the poll left it. *)
Theorem zone_of_unknown_devices
    (g : G) (ids : list string) (x : float) (preset : string) :
  (forall device_id, In device_id ids ->
     gw_get_climate_device (gw_poll_status g) device_id = None) ->
  In preset ["Follow Schedule"; "Permanent Hold"; "Off"] ->
  run (set_zone_temperature
         {| ZoneTemperatureRequest.device_ids := ids;
            ZoneTemperatureRequest.temperature := x |}) g
  = {| outcome := Returned (JObject
         [("status", JString "ok");
          ("temperature", JNumber x);
          ("results",
           JArray (map (fun device_id => zone_result device_id false) ids))]);
       gateway_after := gw_poll_status g;
       trace := EvPollStatus ::
                map (fun device_id => EvGetClimateDevice device_id None) ids |}
  /\
  run (set_zone_preset
         {| ZonePresetRequest.device_ids := ids;
            ZonePresetRequest.preset := preset |}) g
  = {| outcome := Returned (JObject
         [("status", JString "ok");
          ("preset", JString preset);
          ("results",
           JArray (map (fun device_id => zone_result device_id false) ids))]);
       gateway_after := gw_poll_status g;
       trace := EvPollStatus ::
                map (fun device_id => EvGetClimateDevice device_id None) ids |}.
Proof.
  intros Habsent Hvalid. apply py_in_true in Hvalid.
  rewrite run_set_zone_temperature, run_set_zone_preset.
  cbn [ZoneTemperatureRequest.device_ids ZoneTemperatureRequest.temperature
       ZonePresetRequest.device_ids ZonePresetRequest.preset].
  rewrite Hvalid.
  split.
  - destruct (zone_visits_absent
                (fun device_id => SetClimateDeviceTemperature device_id x)
                (gw_poll_status g) ids Habsent) as [Hv Hg].
    rewrite Hv, Hg, zone_entries_absent, zone_calls_absent. reflexivity.
  - destruct (zone_visits_absent
                (fun device_id => SetClimateDevicePreset device_id preset)
                (gw_poll_status g) ids Habsent) as [Hv Hg].
    rewrite Hv, Hg, zone_entries_absent, zone_calls_absent. reflexivity.
Qed.

End ZoneFurther.

Lemma zone_of_unknown_devices_example :
  (forall device_id, In device_id ["B"; "Z"] ->
     gw_get_climate_device (gw_poll_status Fake.house) device_id = None) /\
  In "Off" ["Follow Schedule"; "Permanent Hold"; "Off"] /\
  outcome (run (set_zone_preset
                  {| ZonePresetRequest.device_ids := ["B"; "Z"];
                     ZonePresetRequest.preset := "Off" |}) Fake.house)
  = Returned (JObject
      [("status", JString "ok");
       ("preset", JString "Off");
       ("results", JArray
          [JObject [("device_id", JString "B");
                    ("status", JString "not_found")];
           JObject [("device_id", JString "Z");
                    ("status", JString "not_found")]])]).
Proof.
  assert (Habsent : forall device_id, In device_id ["B"; "Z"] ->
            gw_get_climate_device (gw_poll_status Fake.house) device_id
            = None).
  { intros device_id [E | [E | []]]; subst device_id; reflexivity. }
  assert (Hin : In "Off" ["Follow Schedule"; "Permanent Hold"; "Off"])
    by (simpl; auto).
  split; [exact Habsent |]. split; [exact Hin |].
  destruct (zone_of_unknown_devices Fake.house ["B"; "Z"] 18%float "Off"
              Habsent Hin) as [_ Hp].
  rewrite Hp. reflexivity.
Defined.

Section ZoneIndependence.
Context {G : Type} `{Gateway G}.

(** X7.  With a client whose setters leave its record of the devices
    alone (it changes in a poll only), the ids of a batch do not affect
    one another: the entry of each id says whether that id was known after
    the poll, whatever comes before it in the batch, and the setter is
    called for the known ids, in request order, with the value of the
    request.  So the results of a batch made of two lists are the results
    of the first followed by those of the second. *)
Theorem zone_outcomes_are_pointwise
    (g : G) (ids more : list string) (x : float) (preset : string) :
  (forall (g' : G) device_id other,
     gw_get_climate_device
       (gw_set_climate_device_temperature g' device_id x) other
     = gw_get_climate_device g' other) ->
  (forall (g' : G) device_id other,
     gw_get_climate_device
       (gw_set_climate_device_preset g' device_id preset) other
     = gw_get_climate_device g' other) ->
  In preset ["Follow Schedule"; "Permanent Hold"; "Off"] ->
  let known := fun device_id =>
    is_some (gw_get_climate_device (gw_poll_status g) device_id) in
  let entries := fun batch =>
    map (fun device_id => zone_result device_id (known device_id)) batch in
  let on_temperature := fun batch =>
    run (set_zone_temperature
           {| ZoneTemperatureRequest.device_ids := batch;
              ZoneTemperatureRequest.temperature := x |}) g in
  let on_preset := fun batch =>
    run (set_zone_preset
           {| ZonePresetRequest.device_ids := batch;
              ZonePresetRequest.preset := preset |}) g in
  (outcome (on_temperature ids) = Returned (JObject
     [("status", JString "ok");
      ("temperature", JNumber x);
      ("results", JArray (entries ids))]) /\
   filter is_setter (trace (on_temperature ids))
   = map (fun device_id => EvSetTemperature device_id x) (filter known ids) /\
   outcome (on_temperature (ids ++ more)%list) = Returned (JObject
     [("status", JString "ok");
      ("temperature", JNumber x);
      ("results", JArray (entries ids ++ entries more)%list)]))
  /\
  (outcome (on_preset ids) = Returned (JObject
     [("status", JString "ok");
      ("preset", JString preset);
      ("results", JArray (entries ids))]) /\
   filter is_setter (trace (on_preset ids))
   = map (fun device_id => EvSetPreset device_id preset) (filter known ids) /\
   outcome (on_preset (ids ++ more)%list) = Returned (JObject
     [("status", JString "ok");
      ("preset", JString preset);
      ("results", JArray (entries ids ++ entries more)%list)])).
Proof.
  intros Stable_t Stable_p Hvalid known entries on_temperature on_preset.
  apply py_in_true in Hvalid.
  assert (Hentries : forall batch : list string,
    map zone_entry
      (map (fun device_id =>
              (device_id,
               gw_get_climate_device (gw_poll_status g) device_id)) batch)
    = entries batch).
  { intros batch. subst entries. cbv beta.
    rewrite map_map. apply map_ext. intros device_id.
    unfold zone_entry, zone_result, known. simpl.
    now destruct (gw_get_climate_device (gw_poll_status g) device_id). }
  assert (Hfound : forall (batch : list string) (f : string -> Event),
    map (fun v : string * option ClimateDevice.t => f (fst v))
      (filter found
         (map (fun device_id =>
                 (device_id,
                  gw_get_climate_device (gw_poll_status g) device_id))
              batch))
    = map f (filter known batch)).
  { intros batch f. induction batch as [| device_id rest IH]; simpl;
      [reflexivity |].
    unfold found at 1, known at 1. simpl.
    destruct (gw_get_climate_device (gw_poll_status g) device_id); simpl;
      now rewrite IH. }
  assert (Ht : forall batch,
    outcome (on_temperature batch) = Returned (JObject
      [("status", JString "ok");
       ("temperature", JNumber x);
       ("results", JArray (entries batch))]) /\
    filter is_setter (trace (on_temperature batch))
    = map (fun device_id => EvSetTemperature device_id x)
          (filter known batch)).
  { intros batch. subst on_temperature. cbv beta.
    rewrite run_set_zone_temperature.
    cbn [ZoneTemperatureRequest.device_ids
         ZoneTemperatureRequest.temperature outcome trace].
    rewrite (zone_visits_stable
               (fun device_id => SetClimateDeviceTemperature device_id x))
      by (intros g' device_id other; apply Stable_t).
    rewrite Hentries. split; [reflexivity |].
    cbn [filter is_setter].
    rewrite (zone_calls_setters
               (fun device_id => SetClimateDeviceTemperature device_id x))
      by reflexivity.
    apply (Hfound batch (fun device_id => EvSetTemperature device_id x)). }
  assert (Hp : forall batch,
    outcome (on_preset batch) = Returned (JObject
      [("status", JString "ok");
       ("preset", JString preset);
       ("results", JArray (entries batch))]) /\
    filter is_setter (trace (on_preset batch))
    = map (fun device_id => EvSetPreset device_id preset)
          (filter known batch)).
  { intros batch. subst on_preset. cbv beta.
    rewrite run_set_zone_preset.
    cbn [ZonePresetRequest.device_ids ZonePresetRequest.preset].
    rewrite Hvalid. cbn [outcome trace].
    rewrite (zone_visits_stable
               (fun device_id => SetClimateDevicePreset device_id preset))
      by (intros g' device_id other; apply Stable_p).
    rewrite Hentries. split; [reflexivity |].
    cbn [filter is_setter].
    rewrite (zone_calls_setters
               (fun device_id => SetClimateDevicePreset device_id preset))
      by reflexivity.
    apply (Hfound batch (fun device_id => EvSetPreset device_id preset)). }
  assert (Happ : entries (ids ++ more)%list
                 = (entries ids ++ entries more)%list)
    by (subst entries; cbv beta; apply map_app).
  split.
  - split; [apply Ht |]. split; [apply Ht |].
    rewrite <- Happ. apply Ht.
  - split; [apply Hp |]. split; [apply Hp |].
    rewrite <- Happ. apply Hp.
Qed.

(** X8.  A zone of one id does to the gateway what the single-device
    request for that id does: the same calls in the same order and the
    same gateway afterwards.  The answers differ in form only when the
    device is missing: the zone answers ok with a [not_found] entry where
    the single request raises HTTP 404.  For presets this holds when the
    preset is accepted; a rejected preset ends the zone request with
    HTTP 400 right after the poll, where the single request still makes
    its lookup first, and neither calls the setter. *)
Theorem singleton_zone_acts_as_single_request
    (g : G) (device_id : string) (x : float) (preset : string) :
  let zone_t :=
    run (set_zone_temperature
           {| ZoneTemperatureRequest.device_ids := [device_id];
              ZoneTemperatureRequest.temperature := x |}) g in
  let single_t :=
    run (set_temperature device_id
           {| TemperatureRequest.temperature := x |}) g in
  let zone_p :=
    run (set_zone_preset
           {| ZonePresetRequest.device_ids := [device_id];
              ZonePresetRequest.preset := preset |}) g in
  let single_p :=
    run (set_preset device_id {| PresetRequest.preset := preset |}) g in
  let returned := fun (r : Run G JSON) =>
    match outcome r with
    | Returned _ => true
    | Raised _ => false
    end in
  (trace zone_t = trace single_t /\
   gateway_after zone_t = gateway_after single_t /\
   outcome zone_t = Returned (JObject
     [("status", JString "ok");
      ("temperature", JNumber x);
      ("results", JArray [zone_result device_id (returned single_t)])]))
  /\
  (if py_in preset ["Follow Schedule"; "Permanent Hold"; "Off"]
   then
     trace zone_p = trace single_p /\
     gateway_after zone_p = gateway_after single_p /\
     outcome zone_p = Returned (JObject
       [("status", JString "ok");
        ("preset", JString preset);
        ("results", JArray [zone_result device_id (returned single_p)])])
   else
     outcome zone_p = Raised (HTTP 400
       "Invalid preset. Must be one of: ['Follow Schedule', 'Permanent Hold', 'Off']")
     /\
     trace zone_p = [EvPollStatus] /\
     trace single_p
     = [EvPollStatus;
        EvGetClimateDevice device_id
          (gw_get_climate_device (gw_poll_status g) device_id)] /\
     setter_calls (trace single_p) = 0).
Proof.
  intros zone_t single_t zone_p single_p returned.
  subst zone_t single_t zone_p single_p returned.
  rewrite run_set_zone_temperature, run_set_zone_preset,
    run_set_temperature, run_set_preset.
  cbn [ZoneTemperatureRequest.device_ids ZoneTemperatureRequest.temperature
       ZonePresetRequest.device_ids ZonePresetRequest.preset
       zone_visits zone_gateway map flat_map].
  destruct (py_in preset _);
    destruct (gw_get_climate_device (gw_poll_status g) device_id);
    repeat split.
Qed.

End ZoneIndependence.

Lemma zone_outcomes_are_pointwise_example :
  (forall (g' : Fake.t) device_id other,
     gw_get_climate_device
       (gw_set_climate_device_temperature g' device_id 18%float) other
     = gw_get_climate_device g' other) /\
  (forall (g' : Fake.t) device_id other,
     gw_get_climate_device
       (gw_set_climate_device_preset g' device_id "Off") other
     = gw_get_climate_device g' other) /\
  In "Off" ["Follow Schedule"; "Permanent Hold"; "Off"] /\
  filter is_setter
    (trace (run (set_zone_preset
                   {| ZonePresetRequest.device_ids := ["C"; "B"; "A"; "C"];
                      ZonePresetRequest.preset := "Off" |}) Fake.house))
  = [EvSetPreset "C" "Off"; EvSetPreset "A" "Off"; EvSetPreset "C" "Off"].
Proof.
  assert (Hin : In "Off" ["Follow Schedule"; "Permanent Hold"; "Off"])
    by (simpl; auto).
  assert (Stable_t : forall (g' : Fake.t) device_id other,
            gw_get_climate_device
              (gw_set_climate_device_temperature g' device_id 18%float) other
            = gw_get_climate_device g' other)
    by (intros g' device_id other; reflexivity).
  assert (Stable_p : forall (g' : Fake.t) device_id other,
            gw_get_climate_device
              (gw_set_climate_device_preset g' device_id "Off") other
            = gw_get_climate_device g' other)
    by (intros g' device_id other; reflexivity).
  split; [exact Stable_t |]. split; [exact Stable_p |].
  split; [exact Hin |].
  destruct (zone_outcomes_are_pointwise (G := Fake.t) Fake.house
              ["C"; "B"; "A"; "C"] [] 18%float "Off"
              Stable_t Stable_p Hin)
    as [_ [_ [Hs _]]].
  exact Hs.
Defined.

(** ** Further properties: reading devices *)

Section ReadingFurther.
Context {G : Type} `{Gateway G}.

(** X9.  The list of GET /devices can be searched by id like the gateway's
    mapping: the first entry with a given id is the view of the record the
    mapping holds for that id, and there is no such entry when the mapping
    has no such key.  The ids of the list are the keys of the mapping, in
    the mapping's order, so keys that are distinct give entries with
    distinct ids. *)
Theorem get_devices_can_be_searched_by_id (g : G) (device_id : string) :
  let items := gw_get_climate_devices (gw_poll_status g) in
  exists listing : DeviceListResponse.t,
    outcome (run get_devices g) = Returned listing /\
    find (fun entry => DeviceResponse.id entry =? device_id)
         (DeviceListResponse.devices listing)
    = option_map (device_to_response device_id) (lookup device_id items) /\
    map DeviceResponse.id (DeviceListResponse.devices listing)
    = map fst items /\
    (NoDup (map fst items) ->
     NoDup (map DeviceResponse.id (DeviceListResponse.devices listing))).
Proof.
  intros items. rewrite run_get_devices. eexists.
  split; [reflexivity |]. cbn [DeviceListResponse.devices]. fold items.
  assert (Hids : map DeviceResponse.id
                   (map (fun '(did, d) => device_to_response did d) items)
                 = map fst items).
  { rewrite map_map. apply map_ext. now intros [did d]. }
  split; [apply lookup_find |]. split; [exact Hids |].
  now rewrite Hids.
Qed.

End ReadingFurther.

(** ** Further properties: every route *)

Section Routes.
Context {G : Type} `{Gateway G}.

Lemma run_returning {A B : Type} (c : Coro A) (f : A -> B) (g : G) :
  run (value <- c ;; Return (f value)) g
  = {| outcome := match outcome (run c g) with
                  | Returned a => Returned (f a)
                  | Raised e => Raised e
                  end;
       gateway_after := gateway_after (run c g);
       trace := trace (run c g) |}.
Proof.
  rewrite run_bind. destruct (outcome (run c g)); simpl;
    [now rewrite app_nil_r | reflexivity].
Qed.

Lemma zone_setters_le_lookups (setter : string -> Effect unit)
    (visits : list (string * option ClimateDevice.t)) :
  (forall device_id, is_setter (observe (setter device_id) tt) = true) ->
  (forall device_id, is_lookup (observe (setter device_id) tt) = false) ->
  setter_calls (EvPollStatus :: flat_map (zone_calls setter) visits)
  <= lookups (EvPollStatus :: flat_map (zone_calls setter) visits).
Proof.
  intros Hs Hl. unfold setter_calls, lookups.
  cbn [filter is_setter is_lookup].
  fold (lookups (flat_map (zone_calls setter) visits)).
  rewrite (zone_calls_lookups setter visits Hl).
  rewrite (zone_calls_setters setter visits Hs), length_map.
  apply filter_length_le.
Qed.

(** X11.  A request that is answered with an error has changed nothing:
    on every route, when the handler raises, no setter has been called,
    the gateway is as the poll left it, and the status is 400 or 404.
    When it returns, it has made no more setter calls than lookups. *)
Theorem error_means_no_mutation (cfg : Config) (route : Route) (g : G) :
  let r := run (handle cfg route) g in
  match outcome r with
  | Raised e =>
      setter_calls (trace r) = 0 /\
      gateway_after r = gw_poll_status g /\
      (HTTPException.status_code e = 400%Z \/
       HTTPException.status_code e = 404%Z)
  | Returned _ =>
      setter_calls (trace r) <= lookups (trace r)
  end.
Proof.
  intros r. subst r.
  destruct route as [| | device_id | device_id [x] | device_id [mode]
                     | device_id [preset] | [ids x] | [ids preset]];
    unfold handle; rewrite run_returning.
  - simpl. unfold setter_calls, lookups. simpl. lia.
  - rewrite run_get_devices. simpl. unfold setter_calls, lookups. simpl. lia.
  - rewrite run_get_device. cbn [outcome trace gateway_after].
    destruct (gw_get_climate_device (gw_poll_status g) device_id).
    + unfold setter_calls, lookups. simpl. lia.
    + repeat split. right. reflexivity.
  - rewrite run_set_temperature.
    destruct (gw_get_climate_device (gw_poll_status g) device_id);
      cbn [outcome trace gateway_after].
    + unfold setter_calls, lookups. simpl. lia.
    + repeat split. right. reflexivity.
  - rewrite run_set_mode.
    destruct (gw_get_climate_device (gw_poll_status g) device_id);
      [destruct (py_in mode _) |]; cbn [outcome trace gateway_after].
    + unfold setter_calls, lookups. simpl. lia.
    + repeat split. left. reflexivity.
    + repeat split. right. reflexivity.
  - rewrite run_set_preset.
    destruct (gw_get_climate_device (gw_poll_status g) device_id);
      [destruct (py_in preset _) |]; cbn [outcome trace gateway_after].
    + unfold setter_calls, lookups. simpl. lia.
    + repeat split. left. reflexivity.
    + repeat split. right. reflexivity.
  - rewrite run_set_zone_temperature. cbn [outcome trace].
    apply zone_setters_le_lookups; reflexivity.
  - rewrite run_set_zone_preset.
    cbn [ZonePresetRequest.preset].
    destruct (py_in preset _); cbn [outcome trace gateway_after].
    + apply zone_setters_le_lookups; reflexivity.
    + repeat split. left. reflexivity.
Qed.

(** X12.  How the routes use the gateway.  No handler connects or closes
    the gateway; that is left to [lifespan].  GET / makes no gateway call
    at all.  Every other route polls exactly once, and the poll is its
    first call.  The three GET routes call no setter, and leave the
    gateway as they found it ([/]) or as the poll left it. *)
Theorem routes_poll_once_and_first (cfg : Config) (route : Route) (g : G) :
  let r := run (handle cfg route) g in
  filter is_lifecycle (trace r) = [] /\
  polls (trace r) = (if is_root route then 0 else 1) /\
  hd_error (trace r) = (if is_root route then None else Some EvPollStatus) /\
  (if is_get route
   then setter_calls (trace r) = 0 /\
        gateway_after r = (if is_root route then g else gw_poll_status g)
   else True).
Proof.
  intros r. subst r.
  destruct route as [| | device_id | device_id [x] | device_id [mode]
                     | device_id [preset] | [ids x] | [ids preset]];
    unfold handle; rewrite run_returning; cbn [is_root is_get].
  - repeat split.
  - rewrite run_get_devices. repeat split.
  - rewrite run_get_device. repeat split.
  - rewrite run_set_temperature.
    destruct (gw_get_climate_device (gw_poll_status g) device_id);
      repeat split.
  - rewrite run_set_mode.
    destruct (gw_get_climate_device (gw_poll_status g) device_id);
      [destruct (py_in mode _) |]; repeat split.
  - rewrite run_set_preset.
    destruct (gw_get_climate_device (gw_poll_status g) device_id);
      [destruct (py_in preset _) |]; repeat split.
  - rewrite run_set_zone_temperature. cbn [trace].
    unfold polls. cbn [filter is_lifecycle is_poll hd_error].
    rewrite zone_calls_without by reflexivity.
    rewrite (zone_calls_polls
               (fun device_id => SetClimateDeviceTemperature device_id _))
      by reflexivity.
    repeat split.
  - rewrite run_set_zone_preset.
    destruct (py_in _ _); cbn [trace]; [| repeat split].
    unfold polls. cbn [filter is_lifecycle is_poll hd_error].
    rewrite zone_calls_without by reflexivity.
    rewrite (zone_calls_polls
               (fun device_id => SetClimateDevicePreset device_id _))
      by reflexivity.
    repeat split.
Qed.

End Routes.
